(** * box: fluent wrappers around Python containers

    A shallow embedding of [box/box.py] (classes [Box], [SizedBox],
    [SequenceBox], [MappingBox], [MutableMappingBox] and [MutableSetBox])
    together with the fragment of the Python runtime the methods rely on,
    followed by the properties of the natural-language specification that
    were checked against it and by further properties of the methods. *)

From Stdlib Require Import String Ascii ZArith QArith List Permutation Bool Lia.
From Stdlib Require Import Floats.SpecFloat.
Import ListNotations.
Open Scope Z_scope.
Set Warnings "-register-all".

(** ** Exceptions and fallible computations *)

(** The exception classes that the modelled code, or the built-ins it
    calls, can raise. *)
Inductive exn : Type :=
| IndexError
| KeyError
| ZeroDivisionError
| OverflowError
| TypeError
| ValueError
| AssertionError
| AttributeError.

Inductive res (A : Type) : Type :=
| Ok (a : A)
| Err (e : exn).

Arguments Ok {A} a.
Arguments Err {A} e.

Definition bind {A B : Type} (m : res A) (k : A -> res B) : res B :=
  match m with
  | Ok a => k a
  | Err e => Err e
  end.

Notation "x <- m ;; k" := (bind m (fun x => k))
  (at level 61, m at next level, right associativity).

(** ** Python values *)

(** The objects a box can hold or wrap.  [VSet] lists the elements of a
    set in its iteration order, [VDict] the entries of a dict in insertion
    order.  A [VStr] is a sequence of characters, one [ascii] each.
    Floats are binary64 numbers ([spec_float] with precision 53 and
    maximal exponent 1024).  Complex numbers and instances of user
    classes are outside the fragment. *)
Inductive object : Type :=
| VNone
| VBool (b : bool)
| VInt (z : Z)
| VFloat (f : spec_float)
| VStr (s : string)
| VList (l : list object)
| VTuple (l : list object)
| VSet (l : list object)
| VDict (kv : list (object * object)).

(** [type(v)], which is also the constructor that [item_type] returns. *)
Inductive pytype : Type :=
| TNoneType | Tbool | Tint | Tfloat | Tstr | Tlist | Ttuple | Tset | Tdict.

Definition type_of (v : object) : pytype :=
  match v with
  | VNone => TNoneType
  | VBool _ => Tbool
  | VInt _ => Tint
  | VFloat _ => Tfloat
  | VStr _ => Tstr
  | VList _ => Tlist
  | VTuple _ => Ttuple
  | VSet _ => Tset
  | VDict _ => Tdict
  end.

(** [bool(v)]. *)
Definition py_bool (v : object) : bool :=
  match v with
  | VNone => false
  | VBool b => b
  | VInt z => negb (z =? 0)
  | VFloat (S754_zero _) => false
  | VFloat _ => true
  | VStr EmptyString => false
  | VStr _ => true
  | VList l | VTuple l | VSet l => negb (Nat.eqb (length l) 0)
  | VDict kv => negb (Nat.eqb (length kv) 0)
  end.

(** [len(v)]: a [TypeError] for objects without a length. *)
Definition py_len (v : object) : res Z :=
  match v with
  | VStr s => Ok (Z.of_nat (String.length s))
  | VList l | VTuple l | VSet l => Ok (Z.of_nat (length l))
  | VDict kv => Ok (Z.of_nat (length kv))
  | _ => Err TypeError
  end.

(** What a [for] loop sees when it runs an iterable to its end: the
    values produced, in order, and the exception that cut the iteration
    short, if any.  A consumer that stops early never meets the
    exception. *)
Record iteration : Type := Iteration {
  yielded : list object;
  raised : option exn
}.

Definition yield_all (vs : list object) : iteration :=
  {| yielded := vs; raised := None |}.

Definition raise_at_once (e : exn) : iteration :=
  {| yielded := []; raised := Some e |}.

Definition yield_first (v : object) (rest : iteration) : iteration :=
  {| yielded := v :: yielded rest; raised := raised rest |}.

Definition chars (s : string) : list object :=
  map (fun c => VStr (String c EmptyString)) (list_ascii_of_string s).

(** [iter(v)] run to its end: elements of a list, tuple or set, keys of
    a dict, characters of a string. *)
Definition py_iter (v : object) : iteration :=
  match v with
  | VList l | VTuple l | VSet l => yield_all l
  | VDict kv => yield_all (map fst kv)
  | VStr s => yield_all (chars s)
  | _ => raise_at_once TypeError
  end.

(** [isinstance(v, collections.abc.Sequence)]: among the modelled
    classes, [list], [tuple] and [str] are the registered sequences. *)
Definition isinstance_Sequence (v : object) : bool :=
  match v with
  | VList _ | VTuple _ | VStr _ => true
  | _ => false
  end.

(** [isinstance(v, collections.abc.Mapping)]. *)
Definition isinstance_Mapping (v : object) : bool :=
  match v with
  | VDict _ => true
  | _ => false
  end.

(** [isinstance(v, numbers.Complex)]: [bool], [int] and [float]. *)
Definition isinstance_Complex (v : object) : bool :=
  match v with
  | VBool _ | VInt _ | VFloat _ => true
  | _ => false
  end.

(** ** Numbers *)

(** [bool] is a subclass of [int]: the integer a [bool] or [int] stands
    for in arithmetic. *)
Definition as_int (v : object) : option Z :=
  match v with
  | VBool b => Some (if b then 1 else 0)
  | VInt z => Some z
  | _ => None
  end.

(** Conversion of an [int] operand to [float]: rounded to the nearest
    binary64 number, ties to even; too large an integer raises
    [OverflowError]. *)
Definition float_of_int (z : Z) : res spec_float :=
  match binary_normalize 53 1024 z 0 false with
  | S754_infinity _ => Err OverflowError
  | f => Ok f
  end.

Definition as_float (v : object) : option (res spec_float) :=
  match v with
  | VFloat f => Some (Ok f)
  | _ => option_map float_of_int (as_int v)
  end.

(** [a / b] on two integers: the exact quotient rounded once to
    binary64; the sign of a zero quotient is the sign of the exact one. *)
Definition int_truediv (a b : Z) : res object :=
  if b =? 0 then Err ZeroDivisionError
  else if a =? 0 then Ok (VFloat (S754_zero (b <? 0)))
  else
    match SFdiv 53 1024 (S754_finite (a <? 0) (Z.to_pos (Z.abs a)) 0)
                        (S754_finite (b <? 0) (Z.to_pos (Z.abs b)) 0) with
    | S754_infinity _ => Err OverflowError
    | q => Ok (VFloat q)
    end.

Definition float_is_zero (f : spec_float) : bool :=
  match f with
  | S754_zero _ => true
  | _ => false
  end.

Definition float_truediv (x y : spec_float) : res object :=
  if float_is_zero y then Err ZeroDivisionError
  else Ok (VFloat (SFdiv 53 1024 x y)).

(** [a / b] ([operator.truediv]). *)
Definition py_truediv (a b : object) : res object :=
  match as_int a, as_int b with
  | Some x, Some y => int_truediv x y
  | _, _ =>
    match as_float a, as_float b with
    | Some rx, Some ry => x <- rx ;; y <- ry ;; float_truediv x y
    | _, _ => Err TypeError
    end
  end.

(** [a + b]: numbers add, strings, lists and tuples concatenate, every
    other pair of operands is a [TypeError]. *)
Definition py_add (a b : object) : res object :=
  match a, b with
  | VStr s, VStr t => Ok (VStr (s ++ t))
  | VList l, VList m => Ok (VList (l ++ m))
  | VTuple l, VTuple m => Ok (VTuple (l ++ m))
  | _, _ =>
    match as_int a, as_int b with
    | Some x, Some y => Ok (VInt (x + y))
    | _, _ =>
      match as_float a, as_float b with
      | Some rx, Some ry =>
        x <- rx ;; y <- ry ;; Ok (VFloat (SFadd 53 1024 x y))
      | _, _ => Err TypeError
      end
    end
  end.

(** Exact comparison of an integer with a float, as [==] does it. *)
Definition int_eq_float (z : Z) (f : spec_float) : bool :=
  match f with
  | S754_zero _ => z =? 0
  | S754_finite s m e =>
    let sm := if s then Z.neg m else Z.pos m in
    if 0 <=? e then z =? sm * 2 ^ e else z * 2 ^ (- e) =? sm
  | _ => false
  end.

Definition num_eq (a b : object) : bool :=
  match a, b with
  | VFloat x, VFloat y => SFeqb x y
  | VFloat x, _ =>
    match as_int b with Some z => int_eq_float z x | None => false end
  | _, VFloat y =>
    match as_int a with Some z => int_eq_float z y | None => false end
  | _, _ =>
    match as_int a, as_int b with
    | Some x, Some y => x =? y
    | _, _ => false
    end
  end.

(** [a == b].  Sequences compare element by element, sets and dicts
    regardless of order.  Where the runtime first tries [a is b]
    (membership tests, hashed lookups), the model compares values only:
    the two answers differ for NaN alone, which is taken as a fresh
    object at each occurrence. *)
Fixpoint py_eq (a b : object) {struct a} : bool :=
  match a, b with
  | VNone, VNone => true
  | VStr s, VStr t => String.eqb s t
  | VList l, VList m | VTuple l, VTuple m =>
    (fix all2 (l m : list object) {struct l} : bool :=
       match l, m with
       | [], [] => true
       | x :: l', y :: m' => py_eq x y && all2 l' m'
       | _, _ => false
       end) l m
  | VSet l, VSet m =>
    Nat.eqb (length l) (length m)
    && forallb (fun x => existsb (fun y => py_eq x y) m) l
  | VDict l, VDict m =>
    Nat.eqb (length l) (length m)
    && forallb (fun kv =>
         match kv with
         | (k, v) => existsb (fun kv' => py_eq k (fst kv') && py_eq v (snd kv')) m
         end) l
  | (VBool _ | VInt _ | VFloat _), (VBool _ | VInt _ | VFloat _) => num_eq a b
  | _, _ => false
  end.

(** Whether [hash(v)] succeeds. *)
Fixpoint hashable (v : object) : bool :=
  match v with
  | VNone | VBool _ | VInt _ | VFloat _ | VStr _ => true
  | VTuple l => forallb hashable l
  | VList _ | VSet _ | VDict _ => false
  end.

(** ** Indexing, slicing and ranges *)

(** [l[i]] for an integer [i]: a negative index counts from the end. *)
Definition index_list {A : Type} (l : list A) (i : Z) : res A :=
  let n := Z.of_nat (length l) in
  let j := if i <? 0 then i + n else i in
  if (0 <=? j) && (j <? n) then
    match nth_error l (Z.to_nat j) with
    | Some x => Ok x
    | None => Err IndexError
    end
  else Err IndexError.

Fixpoint dict_lookup (kv : list (object * object)) (k : object) : res object :=
  match kv with
  | [] => Err KeyError
  | (k', v) :: rest => if py_eq k' k then Ok v else dict_lookup rest k
  end.

(** [v[k]] for a key or an integer index [k]. *)
Definition py_getitem (v k : object) : res object :=
  match v with
  | VList l | VTuple l =>
    match as_int k with
    | Some i => index_list l i
    | None => Err TypeError
    end
  | VStr s =>
    match as_int k with
    | Some i => index_list (chars s) i
    | None => Err TypeError
    end
  | VDict kv => if hashable k then dict_lookup kv k else Err TypeError
  | _ => Err TypeError
  end.

(** A slice bound brought into [0 .. n]. *)
Definition clamp_index (n i : Z) : Z :=
  if i <? 0 then Z.max (i + n) 0 else Z.min i n.

Definition slice_list {A : Type} (l : list A) (start stop : Z) : list A :=
  let n := Z.of_nat (length l) in
  let lo := clamp_index n start in
  let hi := clamp_index n stop in
  firstn (Z.to_nat (hi - lo)) (skipn (Z.to_nat lo) l).

(** [v[start:stop]]: a slice has the type of the sequence it is cut
    from. *)
Definition py_getslice (v : object) (start stop : Z) : res object :=
  match v with
  | VList l => Ok (VList (slice_list l start stop))
  | VTuple l => Ok (VTuple (slice_list l start stop))
  | VStr s =>
    let n := Z.of_nat (String.length s) in
    let lo := clamp_index n start in
    let hi := clamp_index n stop in
    Ok (VStr (substring (Z.to_nat lo) (Z.to_nat (hi - lo)) s))
  | _ => Err TypeError
  end.

(** [range(start, stop, step)] as the list of its members. *)
Definition py_range (start stop step : Z) : res (list Z) :=
  if step =? 0 then Err ValueError
  else
    let n :=
      if 0 <? step
      then (if start <? stop then (stop - start - 1) / step + 1 else 0)
      else (if stop <? start then (start - stop - 1) / (- step) + 1 else 0) in
    Ok (map (fun k => start + Z.of_nat k * step) (seq 0 (Z.to_nat n))).

(** ** Calling a container type on an iterable *)

Definition set_add (acc : list object) (v : object) : list object :=
  if existsb (fun x => py_eq x v) acc then acc else acc ++ [v].

Fixpoint set_from (acc vs : list object) : res (list object) :=
  match vs with
  | [] => Ok acc
  | v :: rest => if hashable v then set_from (set_add acc v) rest else Err TypeError
  end.

Fixpoint dict_set (kv : list (object * object)) (k v : object) : list (object * object) :=
  match kv with
  | [] => [(k, v)]
  | (k', v') :: rest =>
    if py_eq k' k then (k', v) :: rest else (k', v') :: dict_set rest k v
  end.

(** [dict(iterable)]: every element must itself produce exactly two
    values, a hashable key and its value. *)
Fixpoint dict_from (acc : list (object * object)) (vs : list object)
  : res (list (object * object)) :=
  match vs with
  | [] => Ok acc
  | v :: rest =>
    match py_iter v with
    | {| yielded := [k; x]; raised := None |} =>
      if hashable k then dict_from (dict_set acc k x) rest else Err TypeError
    | {| yielded := _; raised := None |} => Err ValueError
    | {| yielded := _; raised := Some e |} => Err e
    end
  end.

(** The elements were consumed without an error of the consumer: the
    error of the producer, if any, comes last. *)
Definition after_all {A : Type} (it : iteration) (r : res A) : res A :=
  match r with
  | Ok a =>
    match raised it with
    | None => Ok a
    | Some e => Err e
    end
  | Err e => Err e
  end.

Section Runtime.

(** What [str] returns for a generator object: its printed form, which
    names a memory address. *)
Variable generator_repr : string.

(** The order in which a freshly built set iterates over its (distinct)
    elements, decided by the hash table. *)
Variable set_order : list object -> list object.

(** [t(iterable)] for the type [t] of a wrapped object.  [list], [tuple],
    [set] and [dict] consume the iterable; [str] and [bool] answer
    without looking at its elements; the other types refuse it. *)
Definition construct (t : pytype) (it : iteration) : res object :=
  match t with
  | Tlist => after_all it (Ok (VList (yielded it)))
  | Ttuple => after_all it (Ok (VTuple (yielded it)))
  | Tset => s <- after_all it (set_from [] (yielded it)) ;; Ok (VSet (set_order s))
  | Tdict => kv <- after_all it (dict_from [] (yielded it)) ;; Ok (VDict kv)
  | Tstr => Ok (VStr generator_repr)
  | Tbool => Ok (VBool true)
  | Tint | Tfloat | TNoneType => Err TypeError
  end.

(** ** Boxes *)

(** The classes of the module.  [SizedBox] extends [Box]; [SequenceBox],
    [MappingBox] and [MutableSetBox] extend [SizedBox]. *)
Inductive box_class : Type :=
| CBox | CSizedBox | CSequenceBox | CMappingBox | CMutableMappingBox | CMutableSetBox.

(** An instance: its class, the attribute [_items] that [Box.__init__]
    sets, and the attribute [items] that only [SequenceBox.__init__]
    sets. *)
Record box : Type := Box {
  cls : box_class;
  _items : object;
  items : option object
}.

(** [Box.__init__]: a fresh instance has no [_items] yet, so the
    argument is stored. *)
Definition Box___init__ (c : box_class) (items : object) : box :=
  {| cls := c; _items := items; items := None |}.

(** [SequenceBox.__init__]. *)
Definition SequenceBox___init__ (items : object) : box :=
  let self := Box___init__ CSequenceBox items in
  if isinstance_Sequence items
  then {| cls := cls self; _items := _items self; items := Some items |}
  else {| cls := cls self; _items := _items self; items := Some (VList [items]) |}.

(** [type(self)(items)]. *)
Definition instantiate (c : box_class) (items : object) : box :=
  match c with
  | CSequenceBox => SequenceBox___init__ items
  | _ => Box___init__ c items
  end.

Definition Box___bool__ (self : box) : bool := py_bool (_items self).

Definition Box___iter__ (self : box) : iteration := py_iter (_items self).

Definition item_type (self : box) : pytype := type_of (_items self).

Definition SizedBox___len__ (self : box) : res Z := py_len (_items self).

(** [SequenceBox.__getitem__] at an integer index. *)
Definition SequenceBox___getitem__ (self : box) (index : object) : res object :=
  match items self with
  | Some its => py_getitem its index
  | None => Err AttributeError
  end.

(** [SequenceBox.__getitem__] at [slice(start, stop)]. *)
Definition SequenceBox___getitem___slice (self : box) (start stop : Z) : res object :=
  match items self with
  | Some its => py_getslice its start stop
  | None => Err AttributeError
  end.

(** [len(self)]: every class but [Box] inherits [SizedBox.__len__]. *)
Definition len_self (self : box) : res Z :=
  match cls self with
  | CBox => Err TypeError
  | _ => SizedBox___len__ self
  end.

(** *** The mixin methods of [collections.abc.Sequence]

    The method resolution order of [SequenceBox] is [SequenceBox],
    [SizedBox], [Sequence], [Reversible], [Collection], [Sized], [Box],
    [Iterable], [Container]: the mixin methods [__iter__],
    [__contains__] and [__reversed__] of [Sequence] come before those of
    [Box].  They go through [self[i]] and [len(self)]. *)

(** [Sequence.__iter__]: [self[0]], [self[1]], ... until [IndexError].
    [fuel] bounds the number of indices tried. *)
Fixpoint Sequence_iter_from (fuel : nat) (self : box) (i : Z) : iteration :=
  match fuel with
  | O => yield_all []
  | S fuel' =>
    match SequenceBox___getitem__ self (VInt i) with
    | Ok v => yield_first v (Sequence_iter_from fuel' self (i + 1))
    | Err IndexError => yield_all []
    | Err e => raise_at_once e
    end
  end.

(** One index more than [items] has elements. *)
Definition Sequence_iter_fuel (self : box) : nat :=
  match items self with
  | Some its => S (length (yielded (py_iter its)))
  | None => 1%nat
  end.

Definition Sequence___iter__ (self : box) : iteration :=
  Sequence_iter_from (Sequence_iter_fuel self) self 0.

(** [for value in self]. *)
Definition iter_self (self : box) : iteration :=
  match cls self with
  | CSequenceBox => Sequence___iter__ self
  | _ => Box___iter__ self
  end.

(** [Sequence.__contains__]: [any(v is value or v == value for v in self)].
    An object is represented by its value, so the loop tests [v == value]
    only.  For a [value] that equals itself this is the test of the code:
    an element that is [value] then also equals it.  It is not for a NaN,
    or a container holding one, met again as the same object; the
    properties of membership below are stated for values that equal
    themselves. *)
Fixpoint contains_loop (vs : list object) (tail : option exn) (value : object) : res bool :=
  match vs with
  | [] =>
    match tail with
    | None => Ok false
    | Some e => Err e
    end
  | v :: rest => if py_eq v value then Ok true else contains_loop rest tail value
  end.

Definition Sequence___contains__ (self : box) (value : object) : res bool :=
  let it := Sequence___iter__ self in
  contains_loop (yielded it) (raised it) value.

Fixpoint yield_indices (self : box) (indices : list Z) : iteration :=
  match indices with
  | [] => yield_all []
  | i :: rest =>
    match SequenceBox___getitem__ self (VInt i) with
    | Ok v => yield_first v (yield_indices self rest)
    | Err e => raise_at_once e
    end
  end.

(** [Sequence.__reversed__]: [self[i] for i in reversed(range(len(self)))]. *)
Definition Sequence___reversed__ (self : box) : iteration :=
  match n <- len_self self ;; py_range 0 n 1 with
  | Ok indices => yield_indices self (rev indices)
  | Err e => raise_at_once e
  end.

(** *** [Box] *)

(** The generator inside [Box.chunk].  The local list [chunk] is created
    once and never emptied; every [yield chunk] hands out that same list
    object.  The run returns the contents of [chunk] at each [yield], in
    order, and its contents when the loop is over. *)
Fixpoint chunk_generator (chunk_size : Z) (values chunk : list object)
  : list (list object) * list object :=
  match values with
  | [] => ([], chunk)
  | value :: rest =>
    let chunk := chunk ++ [value] in
    if Z.of_nat (length chunk) =? chunk_size
    then let (later, final) := chunk_generator chunk_size rest chunk in
         (chunk :: later, final)
    else chunk_generator chunk_size rest chunk
  end.

(** The box that [Box.chunk] returns: [type(self)(generator())] wraps
    the generator itself, not a container built from it.  [at_yield]
    lists what the one list object held each time it was yielded,
    [at_end] what it holds once the generator is exhausted, [failure]
    the exception of the underlying iteration, if any. *)
Record chunk_box : Type := ChunkBox {
  chunk_cls : box_class;
  at_yield : list (list object);
  at_end : list object;
  failure : option exn
}.

Definition Box_chunk (self : box) (chunk_size : Z) : chunk_box :=
  let it := iter_self self in
  let (groups, final) := chunk_generator chunk_size (yielded it) [] in
  {| chunk_cls := cls self; at_yield := groups; at_end := final;
     failure := raised it |}.

(** The groups a caller holds after running the returned box to its end
    (as [list(box)] does): one reference to the same list per [yield]. *)
Definition groups_after_exhaustion (r : chunk_box) : list (list object) :=
  map (fun _ => at_end r) (at_yield r).

Definition Box_first (self : box) (or_fail : bool) : res object :=
  let it := iter_self self in
  match yielded it with
  | value :: _ => Ok value
  | [] =>
    match raised it with
    | Some e => Err e
    | None => if or_fail then Err IndexError else Ok VNone
    end
  end.

Definition Box_first_or_fail (self : box) : res object := Box_first self true.

Definition is_None (v : object) : bool :=
  match v with
  | VNone => true
  | _ => false
  end.

(** The loop of [Box.reduce]; [is_first_iteration] is cleared in the
    seeding branch only. *)
Fixpoint reduce_loop (callback : object -> object -> res object)
    (values : list object) (result : object) (is_first_iteration : bool)
  : res object :=
  match values with
  | [] => Ok result
  | value :: rest =>
    if is_first_iteration && is_None result
    then reduce_loop callback rest value false
    else r <- callback result value ;;
         reduce_loop callback rest r is_first_iteration
  end.

(** [Box.reduce]; an omitted [initial_value] is [None]. *)
Definition Box_reduce (self : box) (callback : object -> object -> res object)
    (initial_value : object) : res object :=
  let it := iter_self self in
  after_all it (reduce_loop callback (yielded it) initial_value true).

Definition Box_sum (self : box) : res object :=
  Box_reduce self (fun x y => py_add x y) VNone.

(** [Box._new], also what [SequenceBox._new] returns. *)
Definition Box__new (self : box) (items : iteration) : res box :=
  container <- construct (item_type self) items ;;
  Ok (instantiate (cls self) container).

(** [callback(value) for value in self]. *)
Fixpoint map_values (callback : object -> res object) (values : list object)
    (tail : option exn) : iteration :=
  match values with
  | [] => {| yielded := []; raised := tail |}
  | value :: rest =>
    match callback value with
    | Ok v => yield_first v (map_values callback rest tail)
    | Err e => raise_at_once e
    end
  end.

Definition Box_map (self : box) (callback : object -> res object) : res box :=
  let it := iter_self self in
  Box__new self (map_values callback (yielded it) (raised it)).

(** [value for value in self if callback(value)]. *)
Fixpoint filter_values (callback : object -> res object) (values : list object)
    (tail : option exn) : iteration :=
  match values with
  | [] => {| yielded := []; raised := tail |}
  | value :: rest =>
    match callback value with
    | Ok keep =>
      if py_bool keep then yield_first value (filter_values callback rest tail)
      else filter_values callback rest tail
    | Err e => raise_at_once e
    end
  end.

Definition Box_filter (self : box) (callback : option (object -> res object)) : res box :=
  let callback :=
    match callback with
    | Some f => f
    | None => fun v => Ok (VBool (py_bool v))
    end in
  let it := iter_self self in
  Box__new self (filter_values callback (yielded it) (raised it)).

(** The functions of the [operator] module that [_OPERATOR_MAPPING]
    refers to. *)
Inductive operator : Type :=
| operator_eq | operator_ne | operator_le | operator_ge | operator_lt | operator_gt.

Definition _OPERATOR_MAPPING : list (string * operator) :=
  [ ("=", operator_eq); ("==", operator_eq);
    ("!=", operator_ne); ("<>", operator_ne);
    ("<=", operator_le); (">=", operator_ge);
    ("<", operator_lt); (">", operator_gt) ]%string.

Fixpoint mapping_get (m : list (string * operator)) (k : string) : option operator :=
  match m with
  | [] => None
  | (k', f) :: rest => if String.eqb k' k then Some f else mapping_get rest k
  end.

(** Attribute access and the comparison operators belong to the
    runtime and to the classes of the elements. *)
Variable hasattr : object -> string -> bool.
Variable getattr : object -> string -> object.
Variable operator_call : operator -> object -> object -> res object.

Definition Box__where (obj : object) (key : string) (operation : option string)
    (value : object) : res object :=
  obj <- (if hasattr obj key then Ok (getattr obj key)
          else if isinstance_Mapping obj then py_getitem obj (VStr key)
          else Err ValueError) ;;
  match operation with
  | None => Ok (VBool (py_bool obj))
  | Some operation =>
    match mapping_get _OPERATOR_MAPPING operation with
    | None => Err ValueError
    | Some f => operator_call f obj value
    end
  end.

Fixpoint first_where_loop (values : list object) (key : string)
    (operation : option string) (value : object) : res (option object) :=
  match values with
  | [] => Ok None
  | item :: rest =>
    matches <- Box__where item key operation value ;;
    if py_bool matches then Ok (Some item)
    else first_where_loop rest key operation value
  end.

Definition Box_first_where (self : box) (key : string) (operation : option string)
    (value : object) (or_fail : bool) : res object :=
  let it := iter_self self in
  found <- first_where_loop (yielded it) key operation value ;;
  match found with
  | Some item => Ok item
  | None =>
    match raised it with
    | Some e => Err e
    | None => if or_fail then Err IndexError else Ok VNone
    end
  end.

Definition Box_first_where_or_fail (self : box) (key : string)
    (operation : option string) (value : object) : res object :=
  Box_first_where self key operation value true.

Definition Box_where (self : box) (key : string) (operation : option string)
    (value : object) : res box :=
  Box_filter self (Some (fun obj => Box__where obj key operation value)).

(** *** [SizedBox] *)

(** [SizedBox.average]; [not self] is [Box.__bool__], the truth value of
    [_items]. *)
Definition SizedBox_average (self : box) : res object :=
  if negb (Box___bool__ self) then Err ZeroDivisionError
  else
    the_sum <- Box_sum self ;;
    if isinstance_Complex the_sum
    then n <- len_self self ;; py_truediv the_sum (VInt n)
    else Err AssertionError.

(** *** [SequenceBox] *)

Fixpoint yield_slices (self : box) (indices : list Z) (chunk_size : Z) : iteration :=
  match indices with
  | [] => yield_all []
  | i :: rest =>
    match SequenceBox___getitem___slice self i (i + chunk_size) with
    | Ok v => yield_first v (yield_slices self rest chunk_size)
    | Err e => raise_at_once e
    end
  end.

(** [SequenceBox.chunk]: the range is evaluated when the generator
    expression is created, the slices when [_new] consumes it. *)
Definition SequenceBox_chunk (self : box) (chunk_size : Z) : res box :=
  n <- len_self self ;;
  indices <- py_range 0 n chunk_size ;;
  Box__new self (yield_slices self indices chunk_size).

Definition SequenceBox_reverse (self : box) : res box :=
  Box__new self (Sequence___reversed__ self).

(** *** Membership *)

(** [obj in container] for a built-in container.  A list or tuple
    compares its elements with [obj]; a set or dict hashes [obj] first (a
    set given to a set is looked up as a frozenset, which no set of the
    model holds); a string looks for a substring.  The runtime tries
    [x is obj] before [x == obj]; as in [contains_loop], only [==] is
    tested, which is the same for an [obj] that equals itself, and the
    properties below are stated for such objects. *)
Definition py_contains (container obj : object) : res bool :=
  match container with
  | VList l | VTuple l => Ok (existsb (fun x => py_eq x obj) l)
  | VSet l =>
    if hashable obj then Ok (existsb (fun x => py_eq x obj) l)
    else match obj with
         | VSet _ => Ok false
         | _ => Err TypeError
         end
  | VDict kv =>
    if hashable obj then Ok (existsb (fun x => py_eq x obj) (map fst kv))
    else Err TypeError
  | VStr s =>
    match obj with
    | VStr t =>
      match index 0 t s with
      | Some _ => Ok true
      | None => Ok false
      end
    | _ => Err TypeError
    end
  | _ => Err TypeError
  end.

Definition Box___contains__ (self : box) (obj : object) : res bool :=
  py_contains (_items self) obj.

Definition MappingBox___getitem__ (self : box) (key : object) : res object :=
  py_getitem (_items self) key.

(** [Mapping.__contains__]: [self[key]] succeeds or raises [KeyError]. *)
Definition Mapping___contains__ (self : box) (key : object) : res bool :=
  match MappingBox___getitem__ self key with
  | Ok _ => Ok true
  | Err KeyError => Ok false
  | Err e => Err e
  end.

(** [obj in self]: [Sequence] and [Mapping] bring their own
    [__contains__], the other classes use [Box.__contains__]. *)
Definition contains_self (self : box) (obj : object) : res bool :=
  match cls self with
  | CSequenceBox => Sequence___contains__ self obj
  | CMappingBox | CMutableMappingBox => Mapping___contains__ self obj
  | _ => Box___contains__ self obj
  end.

(** *** Methods that take a second iterable *)

(** The argument [other]: a built-in container or another box. *)
Inductive iterable : Type :=
| Plain (v : object)
| Boxed (b : box).

Definition iter_other (other : iterable) : iteration :=
  match other with
  | Plain v => py_iter v
  | Boxed b => iter_self b
  end.

Definition contains_other (other : iterable) (obj : object) : res bool :=
  match other with
  | Plain v => py_contains v obj
  | Boxed b => contains_self b obj
  end.

(** [value for value in self if value not in other]. *)
Fixpoint diff_values (other : iterable) (values : list object) (tail : option exn)
  : iteration :=
  match values with
  | [] => {| yielded := []; raised := tail |}
  | value :: rest =>
    match contains_other other value with
    | Ok found =>
      if found then diff_values other rest tail
      else yield_first value (diff_values other rest tail)
    | Err e => raise_at_once e
    end
  end.

Definition Box_diff (self : box) (other : iterable) : res box :=
  let it := iter_self self in
  Box__new self (diff_values other (yielded it) (raised it)).

(** The generator of [Box.merge]: [yield from self], then
    [yield from other]. *)
Definition merge_generator (first second : iteration) : iteration :=
  match raised first with
  | Some _ => first
  | None => {| yielded := yielded first ++ yielded second; raised := raised second |}
  end.

Definition Box_merge (self : box) (other : iterable) : res box :=
  Box__new self (merge_generator (iter_self self) (iter_other other)).

(** [zip(first, second)] run to its end: it asks [first] for a value
    before [second] and stops as soon as one of them stops. *)
Fixpoint zip_values (first : list object) (first_tail : option exn)
    (second : list object) (second_tail : option exn) : iteration :=
  match first with
  | [] => {| yielded := []; raised := first_tail |}
  | x :: first' =>
    match second with
    | [] => {| yielded := []; raised := second_tail |}
    | y :: second' =>
      yield_first (VTuple [x; y]) (zip_values first' first_tail second' second_tail)
    end
  end.

(** [Box.zip]: [zip] takes the iterator of [other] when it is called, so
    an argument that cannot be iterated is refused before [_new]. *)
Definition Box_zip (self : box) (other : iterable) : res box :=
  let it := iter_self self in
  second <- match other with
            | Plain (VList _ | VTuple _ | VSet _ | VDict _ | VStr _) | Boxed _ =>
              Ok (iter_other other)
            | Plain _ => Err TypeError
            end ;;
  Box__new self (zip_values (yielded it) (raised it) (yielded second) (raised second)).

(** *** [Box.each] *)

(** A callback with side effects on a state [S]: it returns the new
    state and the exception it raised, if any. *)
Fixpoint each_loop {S : Type} (callback : object -> S -> S * option exn)
    (values : list object) (tail : option exn) (s : S) : S * option exn :=
  match values with
  | [] => (s, tail)
  | value :: rest =>
    match callback value s with
    | (s', None) => each_loop callback rest tail s'
    | (s', Some e) => (s', Some e)
    end
  end.

(** [Box.each] returns [self]; the effects of the callbacks stay when an
    exception ends the loop. *)
Definition Box_each {S : Type} (self : box) (callback : object -> S -> S * option exn)
    (s : S) : res box * S :=
  let it := iter_self self in
  match each_loop callback (yielded it) (raised it) s with
  | (s', None) => (Ok self, s')
  | (s', Some e) => (Err e, s')
  end.

(** *** [MutableMappingBox] and [MutableSetBox]

    These methods change the wrapped container in place; they are
    modelled by the box after the call.  Instances of these classes have
    no [items] attribute that could alias the container. *)

Definition with_items (self : box) (container : object) : box :=
  {| cls := cls self; _items := container; items := items self |}.

Fixpoint replace_nth {A : Type} (l : list A) (n : nat) (x : A) : list A :=
  match l, n with
  | [], _ => []
  | _ :: rest, O => x :: rest
  | y :: rest, S n' => y :: replace_nth rest n' x
  end.

Fixpoint remove_nth {A : Type} (l : list A) (n : nat) : list A :=
  match l, n with
  | [], _ => []
  | _ :: rest, O => rest
  | y :: rest, S n' => y :: remove_nth rest n'
  end.

(** A list index brought into range, or [IndexError]. *)
Definition list_position {A : Type} (l : list A) (i : Z) : res nat :=
  let n := Z.of_nat (length l) in
  let j := if i <? 0 then i + n else i in
  if (0 <=? j) && (j <? n) then Ok (Z.to_nat j) else Err IndexError.

(** [container[key] = value]. *)
Definition py_setitem (container key value : object) : res object :=
  match container with
  | VDict kv => if hashable key then Ok (VDict (dict_set kv key value)) else Err TypeError
  | VList l =>
    match as_int key with
    | Some i => n <- list_position l i ;; Ok (VList (replace_nth l n value))
    | None => Err TypeError
    end
  | _ => Err TypeError
  end.

Fixpoint dict_remove (kv : list (object * object)) (k : object)
  : option (list (object * object)) :=
  match kv with
  | [] => None
  | (k', v) :: rest =>
    if py_eq k' k then Some rest
    else option_map (cons (k', v)) (dict_remove rest k)
  end.

(** [del container[key]]. *)
Definition py_delitem (container key : object) : res object :=
  match container with
  | VDict kv =>
    if hashable key then
      match dict_remove kv key with
      | Some kv' => Ok (VDict kv')
      | None => Err KeyError
      end
    else Err TypeError
  | VList l =>
    match as_int key with
    | Some i => n <- list_position l i ;; Ok (VList (remove_nth l n))
    | None => Err TypeError
    end
  | _ => Err TypeError
  end.

Definition MutableMappingBox___setitem__ (self : box) (key value : object) : res box :=
  container <- py_setitem (_items self) key value ;;
  Ok (with_items self container).

Definition MutableMappingBox___delitem__ (self : box) (key : object) : res box :=
  container <- py_delitem (_items self) key ;;
  Ok (with_items self container).

Fixpoint remove_first (l : list object) (value : object) : list object :=
  match l with
  | [] => []
  | x :: rest => if py_eq x value then rest else x :: remove_first rest value
  end.

(** [MutableSetBox.add]: [self._items.add(value)].  A value that is
    already there leaves the set as it is; a new one makes the hash table
    decide on the order again. *)
Definition MutableSetBox_add (self : box) (value : object) : res box :=
  match _items self with
  | VSet l =>
    if hashable value then
      if existsb (fun x => py_eq x value) l then Ok self
      else Ok (with_items self (VSet (set_order (l ++ [value]))))
    else Err TypeError
  | _ => Err AttributeError
  end.

(** [MutableSetBox.discard]: [self._items.discard(value)].  The entry
    found for [value] is removed, the others keep their order. *)
Definition MutableSetBox_discard (self : box) (value : object) : res box :=
  match _items self with
  | VSet l =>
    if hashable value then Ok (with_items self (VSet (remove_first l value)))
    else match value with
         | VSet _ => Ok self
         | _ => Err TypeError
         end
  | _ => Err AttributeError
  end.

End Runtime.

(** ** Notions of the specification *)

(** The strict left fold of a binary operation over [values], from the
    accumulator [acc]. *)
Fixpoint left_fold (f : object -> object -> res object) (acc : object)
    (values : list object) : res object :=
  match values with
  | [] => Ok acc
  | value :: rest => r <- f acc value ;; left_fold f r rest
  end.

(** The rational number that a finite float stands for. *)
Definition float_to_Q (f : spec_float) : option Q :=
  match f with
  | S754_zero _ => Some (0 # 1)
  | S754_finite s m e =>
    Some (Qmult (inject_Z (if s then Z.neg m else Z.pos m)) (Qpower (2 # 1) e))
  | _ => None
  end.

(** Lists and tuples: the ordered sequences of the specification. *)
Definition ordered_sequence (v : object) : option (list object) :=
  match v with
  | VList l | VTuple l => Some l
  | _ => None
  end.

(** The same kind of sequence over other elements. *)
Definition same_kind (v : object) (l : list object) : object :=
  match v with
  | VTuple _ => VTuple l
  | _ => VList l
  end.

(** ** A runtime for the examples *)

(** Elements without attributes of their own, compared by [==] and
    [!=] only; a generator printed without its address; a hash table
    that iterates in insertion order. *)
Definition no_attributes (_ : object) (_ : string) : bool := false.

Definition no_attribute_value (_ : object) (_ : string) : object := VNone.

Definition equality_operators (f : operator) (a b : object) : res object :=
  match f with
  | operator_eq => Ok (VBool (py_eq a b))
  | operator_ne => Ok (VBool (negb (py_eq a b)))
  | _ => Err TypeError
  end.

Definition example_repr : string := "<generator object>".

Definition insertion_order (elements : list object) : list object := elements.

Definition identity (value : object) : res object := Ok value.

(** * Properties *)

(** ** Iterating a box *)

Lemma index_list_in_range {A : Type} (l : list A) (i : nat) (x : A) :
  nth_error l i = Some x -> index_list l (Z.of_nat i) = Ok x.
Proof.
  intros H. unfold index_list.
  assert (Hlt : (i < length l)%nat) by (apply nth_error_Some; congruence).
  destruct (Z.ltb_spec (Z.of_nat i) 0) as [Hneg | _]; [lia |].
  destruct (Z.leb_spec 0 (Z.of_nat i)) as [_ | Hneg]; [| lia].
  destruct (Z.ltb_spec (Z.of_nat i) (Z.of_nat (length l))) as [_ | Hge]; [| lia].
  cbn [andb]. now rewrite Nat2Z.id, H.
Qed.

Lemma index_list_past_end {A : Type} (l : list A) (i : nat) :
  (length l <= i)%nat -> index_list l (Z.of_nat i) = Err IndexError.
Proof.
  intros Hle. unfold index_list.
  destruct (Z.ltb_spec (Z.of_nat i) 0) as [Hneg | _]; [lia |].
  destruct (Z.ltb_spec (Z.of_nat i) (Z.of_nat (length l))) as [Hlt | _]; [lia |].
  now rewrite andb_false_r.
Qed.

(** An integer index into a list, tuple or string reads the element
    that iteration produces at that position. *)
Lemma py_getitem_sequence (its : object) (i : Z) :
  isinstance_Sequence its = true ->
  py_getitem its (VInt i) = index_list (yielded (py_iter its)) i.
Proof.
  destruct its; cbn; intros H; try discriminate H; reflexivity.
Qed.

(** The index loop of [Sequence.__iter__], started at position [i] with
    more fuel than there are elements left, produces the elements from
    [i] on and stops at the [IndexError] of the first index past the end:
    it never runs out of fuel. *)
Lemma Sequence_iter_from_sequence (self : box) (its : object) :
  items self = Some its ->
  isinstance_Sequence its = true ->
  forall (fuel i : nat),
    (i <= length (yielded (py_iter its)))%nat ->
    (length (yielded (py_iter its)) - i < fuel)%nat ->
    Sequence_iter_from fuel self (Z.of_nat i)
    = yield_all (skipn i (yielded (py_iter its))).
Proof.
  intros Hits Hseq. set (els := yielded (py_iter its)).
  induction fuel as [| fuel IH]; intros i Hi Hfuel; [lia |].
  cbn [Sequence_iter_from]. unfold SequenceBox___getitem__. rewrite Hits.
  rewrite (py_getitem_sequence its _ Hseq). fold els.
  destruct (nth_error els i) as [x |] eqn:Hnth.
  - rewrite (index_list_in_range els i x Hnth).
    assert (Hlt : (i < length els)%nat) by (apply nth_error_Some; congruence).
    replace (Z.of_nat i + 1) with (Z.of_nat (S i)) by lia.
    rewrite IH by lia.
    unfold yield_first, yield_all; cbn. f_equal.
    clear - Hnth. revert i Hnth.
    induction els as [| y els IHels]; intros [| i] Hnth; cbn in *;
      try discriminate; [congruence | now apply IHels].
  - assert (Hge : (length els <= i)%nat) by (now apply nth_error_None).
    rewrite (index_list_past_end els i Hge).
    now rewrite skipn_all2.
Qed.

(** More fuel than [Sequence.__iter__] gives its loop changes nothing. *)
Lemma Sequence_iter_enough_fuel (self : box) (its : object) (extra : nat) :
  items self = Some its ->
  isinstance_Sequence its = true ->
  Sequence_iter_from (Sequence_iter_fuel self + extra) self 0 = Sequence___iter__ self.
Proof.
  intros Hits Hseq. unfold Sequence___iter__, Sequence_iter_fuel. rewrite Hits.
  change 0 with (Z.of_nat 0).
  rewrite !(Sequence_iter_from_sequence self its Hits Hseq) by (cbn; lia).
  reflexivity.
Qed.

(** Iterating a [SequenceBox] reads [items], position by position. *)
Lemma Sequence___iter___items (self : box) (its : object) :
  items self = Some its ->
  isinstance_Sequence its = true ->
  Sequence___iter__ self = yield_all (yielded (py_iter its)).
Proof.
  intros Hits Hseq. unfold Sequence___iter__, Sequence_iter_fuel. rewrite Hits.
  change 0 with (Z.of_nat 0).
  now rewrite (Sequence_iter_from_sequence self its Hits Hseq) by (cbn; lia).
Qed.

(** Every [SequenceBox] that [__init__] builds keeps a sequence in
    [items], so its iteration is never cut short by the fuel. *)
Lemma SequenceBox___init___items (x : object) :
  exists its : object,
    items (SequenceBox___init__ x) = Some its
    /\ isinstance_Sequence its = true
    /\ forall extra : nat,
         Sequence_iter_from (Sequence_iter_fuel (SequenceBox___init__ x) + extra)
           (SequenceBox___init__ x) 0
         = Sequence___iter__ (SequenceBox___init__ x).
Proof.
  unfold SequenceBox___init__.
  destruct (isinstance_Sequence x) eqn:Hseq; cbn [Box___init__ cls _items].
  - exists x. split; [reflexivity |]. split; [exact Hseq |].
    intros extra. now apply (Sequence_iter_enough_fuel _ x).
  - exists (VList [x]). split; [reflexivity |]. split; [reflexivity |].
    intros extra. now apply (Sequence_iter_enough_fuel _ (VList [x])).
Qed.

Lemma iter_self_SequenceBox (x : object) :
  iter_self (SequenceBox___init__ x)
  = if isinstance_Sequence x then yield_all (yielded (py_iter x)) else yield_all [x].
Proof.
  unfold iter_self, SequenceBox___init__.
  destruct (isinstance_Sequence x) eqn:Hseq; cbn [cls Box___init__].
  - now apply Sequence___iter___items.
  - now rewrite (Sequence___iter___items _ (VList [x])).
Qed.

Lemma iter_self_ordered_sequence (xs : object) (l : list object) :
  ordered_sequence xs = Some l ->
  iter_self (SequenceBox___init__ xs) = yield_all l.
Proof.
  intros H. rewrite iter_self_SequenceBox.
  destruct xs; cbn in H; try discriminate H; injection H as <-; reflexivity.
Qed.

(** ** [Box.chunk] *)

(** Once [chunk] holds [chunk_size] elements or more, the test
    [len(chunk) == chunk_size] fails for good: nothing is yielded. *)
Lemma chunk_generator_full (chunk_size : Z) (values chunk : list object) :
  chunk_size <= Z.of_nat (length chunk) ->
  chunk_generator chunk_size values chunk = ([], chunk ++ values).
Proof.
  revert chunk. induction values as [| value rest IH]; intros chunk Hfull; cbn.
  - now rewrite app_nil_r.
  - assert (Hlen : length (chunk ++ [value]) = S (length chunk))
      by (rewrite length_app; cbn; lia).
    destruct (Z.eqb_spec (Z.of_nat (length (chunk ++ [value]))) chunk_size) as [Heq | _];
      [lia |].
    rewrite IH by lia. now rewrite <- app_assoc.
Qed.

(** The generator of [Box.chunk] yields once, when [chunk] first holds
    [chunk_size] elements, and never again; [chunk] goes on growing. *)
Lemma chunk_generator_once (chunk_size : Z) (values chunk : list object) :
  Z.of_nat (length chunk) < chunk_size ->
  chunk_generator chunk_size values chunk
  = (if chunk_size <=? Z.of_nat (length chunk + length values)
     then [chunk ++ firstn (Z.to_nat chunk_size - length chunk) values]
     else [],
     chunk ++ values).
Proof.
  revert chunk. induction values as [| value rest IH]; intros chunk Hlt; cbn [chunk_generator].
  - destruct (Z.leb_spec chunk_size (Z.of_nat (length chunk + length (@nil object))));
      [cbn in *; lia | now rewrite app_nil_r].
  - assert (Hlen : length (chunk ++ [value]) = S (length chunk))
      by (rewrite length_app; cbn; lia).
    destruct (Z.eqb_spec (Z.of_nat (length (chunk ++ [value]))) chunk_size) as [Heq | Hne].
    + rewrite chunk_generator_full by lia.
      destruct (Z.leb_spec chunk_size (Z.of_nat (length chunk + length (value :: rest))));
        [| cbn in *; lia].
      replace (Z.to_nat chunk_size - length chunk)%nat with 1%nat by lia.
      cbn [firstn]. now rewrite <- app_assoc.
    + rewrite IH by lia. rewrite Hlen. rewrite <- !app_assoc. cbn [app length].
      replace (S (length chunk) + length rest)%nat
        with (length chunk + S (length rest))%nat by lia.
      destruct (Z.leb_spec chunk_size (Z.of_nat (length chunk + S (length rest))));
        [| reflexivity].
      replace (Z.to_nat chunk_size - length chunk)%nat
        with (S (Z.to_nat chunk_size - S (length chunk)))%nat by lia.
      cbn [firstn]. reflexivity.
Qed.

(** For a positive [chunk_size], [Box.chunk] produces a single group when
    the box has that many elements and none otherwise; the group is the
    list that goes on collecting every element of the box. *)
Lemma Box_chunk_at_most_one_group (self : box) (chunk_size : Z) :
  0 < chunk_size ->
  at_yield (Box_chunk self chunk_size)
  = (if chunk_size <=? Z.of_nat (length (yielded (iter_self self)))
     then [firstn (Z.to_nat chunk_size) (yielded (iter_self self))]
     else [])
  /\ at_end (Box_chunk self chunk_size) = yielded (iter_self self).
Proof.
  intros Hpos. unfold Box_chunk.
  rewrite chunk_generator_once by (cbn; lia). cbn.
  now rewrite Nat.sub_0_r.
Qed.

(** C1.  A generic [Box] over the five elements 1, 2, 3, 4, 5 with
    [chunk(2)] does not produce the two groups [[1, 2]] and [[3, 4]]: the
    generator yields one group only, the list that held [[1, 2]] when it
    was yielded and holds all five elements once the iteration is over. *)
Theorem Box_chunk_five_by_two :
  let r := Box_chunk (Box___init__ CBox (VList (map VInt [1; 2; 3; 4; 5]))) 2 in
  at_yield r = [[VInt 1; VInt 2]]
  /\ length (at_yield r) <> 2%nat
  /\ groups_after_exhaustion r = [[VInt 1; VInt 2; VInt 3; VInt 4; VInt 5]].
Proof.
  cbv zeta. repeat split.
  cbn. discriminate.
Qed.

(** ** [SequenceBox.__init__] *)

(** C2.  A text string is a registered [Sequence]: [SequenceBox.__init__]
    stores it in [items] as it is, not wrapped in a one-element list, and
    the box iterates over its characters. *)
Theorem SequenceBox_init_keeps_string (s : string) :
  items (SequenceBox___init__ (VStr s)) = Some (VStr s)
  /\ items (SequenceBox___init__ (VStr s)) <> Some (VList [VStr s])
  /\ iter_self (SequenceBox___init__ (VStr s)) = yield_all (chars s)
  /\ items (SequenceBox___init__ (VStr "foo")) = Some (VStr "foo").
Proof.
  repeat split.
  - cbn. discriminate.
  - now rewrite iter_self_SequenceBox.
Qed.

(** ** [Box.reduce] *)

(** With the flag cleared, the loop is the strict left fold. *)
Lemma reduce_loop_seeded (callback : object -> object -> res object)
    (values : list object) (result : object) :
  reduce_loop callback values result false = left_fold callback result values.
Proof.
  revert result. induction values as [| value rest IH]; intros result; cbn.
  - reflexivity.
  - destruct (callback result value) as [r | e]; cbn; [apply IH | reflexivity].
Qed.

(** Without a seed, the first element is the accumulator and the
    callback folds the others into it, whatever it returns. *)
Lemma reduce_loop_no_seed (callback : object -> object -> res object)
    (values : list object) :
  reduce_loop callback values VNone true
  = match values with
    | [] => Ok VNone
    | first :: rest => left_fold callback first rest
    end.
Proof.
  destruct values as [| first rest]; cbn; [reflexivity | apply reduce_loop_seeded].
Qed.

(** With a seed, the flag is never cleared: the loop folds as long as
    the callback does not return [None]. *)
Lemma reduce_loop_explicit_seed (callback : object -> object -> res object)
    (value : object) (rest : list object) (result : object) :
  is_None result = false ->
  reduce_loop callback (value :: rest) result true
  = r <- callback result value ;; reduce_loop callback rest r true.
Proof.
  intros Hseed. cbn. now rewrite Hseed.
Qed.

(** C3.  After an explicit initial value, a [None] returned by the
    callback seeds the accumulator again with the next element: with the
    seed 4 and a callback that always returns [None], the box 1, 2 reduces
    to 2, where the strict fold gives [None].  After a first-element seed
    the same callback is folded strictly, and an empty box reduces to
    [None]. *)
Theorem Box_reduce_reseeds_after_explicit_seed :
  let callback := fun (_ _ : object) => Ok VNone in
  Box_reduce (SequenceBox___init__ (VList [VInt 1; VInt 2])) callback (VInt 4)
  = Ok (VInt 2)
  /\ left_fold callback (VInt 4) [VInt 1; VInt 2] = Ok VNone
  /\ Box_reduce (SequenceBox___init__ (VList [VInt 1; VInt 2; VInt 3])) callback VNone
     = Ok VNone
  /\ Box_reduce (SequenceBox___init__ (VList [])) callback VNone = Ok VNone.
Proof.
  cbv zeta. repeat split.
Qed.

(** ** [Box.sum] *)

(** [sum] seeds with the first element and adds the others from the
    left; it has nothing to return for a box that produces no element. *)
Lemma Box_sum_unfold (self : box) :
  Box_sum self
  = after_all (iter_self self)
      match yielded (iter_self self) with
      | [] => Ok VNone
      | first :: rest => left_fold (fun x y => py_add x y) first rest
      end.
Proof.
  unfold Box_sum, Box_reduce. now rewrite reduce_loop_no_seed.
Qed.

(** C9.  The sum of a box without elements is [None], not 0; the sum of
    a box that iterates over [first], then [rest], is the left fold of [+]
    over [rest] from [first].  [SequenceBox([]).sum()] is [None] and
    [SequenceBox([1, 2, 3, 5]).sum()] is 11. *)
Theorem Box_sum_is_left_fold (empty self : box) (first : object) (rest : list object) :
  iter_self empty = yield_all [] ->
  iter_self self = yield_all (first :: rest) ->
  Box_sum empty = Ok VNone
  /\ Box_sum empty <> Ok (VInt 0)
  /\ Box_sum self = left_fold (fun x y => py_add x y) first rest
  /\ Box_sum (SequenceBox___init__ (VList [])) = Ok VNone
  /\ Box_sum (SequenceBox___init__ (VList (map VInt [1; 2; 3; 5]))) = Ok (VInt 11).
Proof.
  intros Hempty Hself.
  assert (Hnone : Box_sum empty = Ok VNone)
    by (rewrite Box_sum_unfold, Hempty; reflexivity).
  split; [exact Hnone |].
  split; [rewrite Hnone; discriminate |].
  split.
  - rewrite Box_sum_unfold, Hself. cbn [yielded yield_all].
    now destruct (left_fold _ first rest).
  - split; reflexivity.
Qed.

Lemma Box_sum_is_left_fold_witness :
  let empty := SequenceBox___init__ (VTuple []) in
  let self := Box___init__ CMutableSetBox (VSet [VInt 4; VInt 6]) in
  iter_self empty = yield_all []
  /\ iter_self self = yield_all [VInt 4; VInt 6]
  /\ Box_sum empty = Ok VNone
  /\ Box_sum self = left_fold (fun x y => py_add x y) (VInt 4) [VInt 6].
Proof.
  cbv zeta.
  split; [reflexivity |]. split; [reflexivity |].
  pose proof (Box_sum_is_left_fold
                (SequenceBox___init__ (VTuple []))
                (Box___init__ CMutableSetBox (VSet [VInt 4; VInt 6]))
                (VInt 4) [VInt 6] eq_refl eq_refl) as H.
  split; [apply H | apply H].
Defined.

(** ** [SizedBox.average] *)

Lemma py_add_Complex (a b c : object) :
  isinstance_Complex a = true ->
  isinstance_Complex b = true ->
  py_add a b = Ok c ->
  isinstance_Complex c = true.
Proof.
  destruct a; try discriminate; destruct b; try discriminate; cbn; intros _ _;
    unfold bind;
    repeat match goal with
           | |- context [float_of_int ?z] => destruct (float_of_int z)
           end;
    intros H; try discriminate H; injection H as <-; reflexivity.
Qed.

(** Numbers add up to a number. *)
Lemma left_fold_add_Complex (values : list object) (acc total : object) :
  isinstance_Complex acc = true ->
  Forall (fun v => isinstance_Complex v = true) values ->
  left_fold (fun x y => py_add x y) acc values = Ok total ->
  isinstance_Complex total = true.
Proof.
  revert acc. induction values as [| value rest IH]; intros acc Hacc Hall; cbn.
  - intros H. injection H as <-. exact Hacc.
  - inversion Hall as [| ? ? Hvalue Hrest]; subst.
    destruct (py_add acc value) as [r |] eqn:Hadd; cbn; [| discriminate].
    apply IH; [| exact Hrest]. exact (py_add_Complex acc value r Hacc Hvalue Hadd).
Qed.

(** A container or string is true exactly when its length is not 0. *)
Lemma py_bool_of_len (v : object) (n : Z) :
  py_len v = Ok n -> py_bool v = negb (n =? 0).
Proof.
  destruct v as [| | | | s | l | l | l | kv]; cbn; intros H; try discriminate H;
    injection H as <-;
    try (destruct s; reflexivity);
    try (destruct l; reflexivity);
    destruct kv; reflexivity.
Qed.

Lemma Box___bool___of_len (self : box) (n : Z) :
  len_self self = Ok n -> Box___bool__ self = negb (n =? 0).
Proof.
  unfold len_self, SizedBox___len__, Box___bool__.
  destruct (cls self); intros H; try discriminate H; now apply py_bool_of_len.
Qed.

Lemma SizedBox_average_empty (self : box) :
  len_self self = Ok 0 -> SizedBox_average self = Err ZeroDivisionError.
Proof.
  intros Hlen. unfold SizedBox_average.
  now rewrite (Box___bool___of_len self 0 Hlen).
Qed.

Lemma SizedBox_average_nonempty (self : box) (first : object) (rest : list object) (n : Z) :
  iter_self self = yield_all (first :: rest) ->
  Forall (fun v => isinstance_Complex v = true) (first :: rest) ->
  len_self self = Ok n ->
  0 < n ->
  SizedBox_average self = (the_sum <- Box_sum self ;; py_truediv the_sum (VInt n)).
Proof.
  intros Hiter Hall Hlen Hpos. unfold SizedBox_average.
  rewrite (Box___bool___of_len self n Hlen).
  destruct (Z.eqb_spec n 0) as [-> | _]; [lia |]. cbn [negb].
  destruct (Box_sum self) as [the_sum | e] eqn:Hsum; cbn [bind]; [| reflexivity].
  assert (Hnum : isinstance_Complex the_sum = true).
  { rewrite Box_sum_unfold, Hiter in Hsum. cbn [yielded yield_all] in Hsum.
    inversion Hall as [| ? ? Hfirst Hrest]; subst.
    destruct (left_fold _ first rest) as [r |] eqn:Hfold; cbn in Hsum; [| discriminate].
    injection Hsum as <-.
    exact (left_fold_add_Complex rest first r Hfirst Hrest Hfold). }
  rewrite Hnum, Hlen. reflexivity.
Qed.

(** C7.  For a sized box of [n > 0] numbers, [average()] is [sum()]
    divided by [len()]; for an empty sized box it raises
    [ZeroDivisionError]; [SequenceBox([1, 2, 3, 5]).average()] is the
    float 11/4 = 2.75. *)
Theorem SizedBox_average_is_sum_over_len
    (self empty : box) (first : object) (rest : list object) (n : Z) :
  iter_self self = yield_all (first :: rest) ->
  Forall (fun v => isinstance_Complex v = true) (first :: rest) ->
  len_self self = Ok n ->
  0 < n ->
  len_self empty = Ok 0 ->
  SizedBox_average self = (the_sum <- Box_sum self ;; py_truediv the_sum (VInt n))
  /\ SizedBox_average empty = Err ZeroDivisionError
  /\ exists f : spec_float,
       SizedBox_average (SequenceBox___init__ (VList (map VInt [1; 2; 3; 5])))
       = Ok (VFloat f)
       /\ option_map (fun q => Qeq_bool q (275 # 100)) (float_to_Q f) = Some true.
Proof.
  intros Hiter Hall Hlen Hpos Hempty.
  split; [now apply (SizedBox_average_nonempty self first rest n) |].
  split; [now apply SizedBox_average_empty |].
  exists (S754_finite false 6192449487634432 (-51)). split; reflexivity.
Qed.

Lemma SizedBox_average_is_sum_over_len_witness :
  let self := Box___init__ CSizedBox (VTuple [VInt 1; VBool true; VInt 4]) in
  let empty := Box___init__ CMutableSetBox (VSet []) in
  SizedBox_average self = (the_sum <- Box_sum self ;; py_truediv the_sum (VInt 3))
  /\ SizedBox_average self = Ok (VFloat (S754_finite false 4503599627370496 (-51)))
  /\ SizedBox_average empty = Err ZeroDivisionError.
Proof.
  cbv zeta.
  destruct (SizedBox_average_is_sum_over_len
              (Box___init__ CSizedBox (VTuple [VInt 1; VBool true; VInt 4]))
              (Box___init__ CMutableSetBox (VSet []))
              (VInt 1) [VBool true; VInt 4] 3) as (Hself & Hempty & _);
    [reflexivity | repeat constructor | reflexivity | lia | reflexivity |].
  split; [exact Hself |]. split; [reflexivity | exact Hempty].
Defined.

(** ** The errors of an empty collection *)

Section EmptyCollection.

Variable hasattr : object -> string -> bool.
Variable getattr : object -> string -> object.
Variable operator_call : operator -> object -> object -> res object.

(** A search that finds no matching element reports nothing found. *)
Lemma first_where_loop_no_match (values : list object) (key : string)
    (operation : option string) (value : object) :
  Forall (fun item =>
            exists matches,
              Box__where hasattr getattr operator_call item key operation value
              = Ok matches
              /\ py_bool matches = false) values ->
  first_where_loop hasattr getattr operator_call values key operation value = Ok None.
Proof.
  induction 1 as [| item rest (matches & Hwhere & Hfalse) _ IH]; cbn.
  - reflexivity.
  - rewrite Hwhere. cbn [bind]. rewrite Hfalse. exact IH.
Qed.

(** C4 (amended).  [first(or_fail=True)] on a box without elements and
    [first_where(..., or_fail=True)] without a matching element raise
    [IndexError]; [average()] on an empty sized box raises
    [ZeroDivisionError], another exception class. *)
Theorem empty_collection_errors (empty unmatched sized : box) (key : string)
    (operation : option string) (value : object) :
  iter_self empty = yield_all [] ->
  raised (iter_self unmatched) = None ->
  Forall (fun item =>
            exists matches,
              Box__where hasattr getattr operator_call item key operation value
              = Ok matches
              /\ py_bool matches = false) (yielded (iter_self unmatched)) ->
  len_self sized = Ok 0 ->
  Box_first empty true = Err IndexError
  /\ Box_first_or_fail empty = Err IndexError
  /\ Box_first_where hasattr getattr operator_call unmatched key operation value true
     = Err IndexError
  /\ Box_first_where_or_fail hasattr getattr operator_call unmatched key operation value
     = Err IndexError
  /\ SizedBox_average sized = Err ZeroDivisionError
  /\ IndexError <> ZeroDivisionError.
Proof.
  intros Hempty Hraised Hnone Hsized.
  assert (Hfirst : Box_first empty true = Err IndexError)
    by (unfold Box_first; rewrite Hempty; reflexivity).
  assert (Hwhere : Box_first_where hasattr getattr operator_call unmatched key
                     operation value true = Err IndexError).
  { unfold Box_first_where.
    rewrite (first_where_loop_no_match _ key operation value Hnone).
    cbn [bind]. now rewrite Hraised. }
  repeat split; try assumption.
  - now apply SizedBox_average_empty.
  - discriminate.
Qed.

End EmptyCollection.

(** C4 (as stated) fails on the empty list: [first_or_fail] and
    [average] do not raise the same exception. *)
Lemma empty_collection_errors_differ :
  ~ exists e : exn,
      Box_first (SequenceBox___init__ (VList [])) true = Err e
      /\ SizedBox_average (SequenceBox___init__ (VList [])) = Err e.
Proof.
  intros (e & Hfirst & Haverage).
  cbn in Hfirst, Haverage. congruence.
Qed.

Lemma empty_collection_errors_witness :
  let records :=
    VList [VDict [(VStr "name", VStr "X")]; VDict [(VStr "name", VStr "Y")]] in
  Box_first (SequenceBox___init__ (VTuple [])) true = Err IndexError
  /\ Box_first_where no_attributes no_attribute_value equality_operators
       (SequenceBox___init__ records) "name" (Some "=="%string) (VStr "Z") true
     = Err IndexError
  /\ SizedBox_average (Box___init__ CMappingBox (VDict [])) = Err ZeroDivisionError.
Proof.
  cbv zeta.
  destruct (empty_collection_errors no_attributes no_attribute_value equality_operators
              (SequenceBox___init__ (VTuple []))
              (SequenceBox___init__
                 (VList [VDict [(VStr "name", VStr "X")]; VDict [(VStr "name", VStr "Y")]]))
              (Box___init__ CMappingBox (VDict []))
              "name" (Some "=="%string) (VStr "Z"))
    as (Hfirst & _ & Hwhere & _ & Haverage & _);
    [ reflexivity
    | reflexivity
    | repeat (constructor; [eexists; split; reflexivity |]); constructor
    | reflexivity
    | ].
  split; [exact Hfirst |]. split; [exact Hwhere | exact Haverage].
Defined.

(** ** A [SequenceBox] around an object that is no sequence *)

(** C10 (amended).  For an object [x] that is no sequence,
    [SequenceBox(x)] keeps [x] in [_items] and the one-element list [[x]]
    in [items].  Length and truth value are those of [x]; iteration and
    membership go through [items] and see the single element [x]: for an
    [x] that equals itself, [value in box] is [x == value].
    [SequenceBox({1, 2, 3})] has length 3 and iterates over one element,
    the set. *)
Theorem SequenceBox_of_non_sequence (x : object) :
  isinstance_Sequence x = false ->
  let self := SequenceBox___init__ x in
  _items self = x
  /\ items self = Some (VList [x])
  /\ len_self self = py_len x
  /\ Box___bool__ self = py_bool x
  /\ iter_self self = yield_all [x]
  /\ (py_eq x x = true ->
      forall value, Sequence___contains__ self value = Ok (py_eq x value))
  /\ len_self (SequenceBox___init__ (VSet [VInt 1; VInt 2; VInt 3])) = Ok 3
  /\ iter_self (SequenceBox___init__ (VSet [VInt 1; VInt 2; VInt 3]))
     = yield_all [VSet [VInt 1; VInt 2; VInt 3]].
Proof.
  intros Hseq self. unfold self, SequenceBox___init__. rewrite Hseq.
  cbn [Box___init__ cls _items items].
  assert (Hiter : Sequence___iter__
                    {| cls := CSequenceBox; _items := x; items := Some (VList [x]) |}
                  = yield_all [x])
    by (now rewrite (Sequence___iter___items _ (VList [x]))).
  repeat split.
  intros _ value. unfold Sequence___contains__. rewrite Hiter.
  cbn. now destruct (py_eq x value).
Qed.

Lemma SequenceBox_of_non_sequence_witness :
  let self := SequenceBox___init__ (VInt 7) in
  isinstance_Sequence (VInt 7) = false
  /\ items self = Some (VList [VInt 7])
  /\ len_self self = Err TypeError
  /\ iter_self self = yield_all [VInt 7]
  /\ py_eq (VInt 7) (VInt 7) = true
  /\ Sequence___contains__ self (VBool true) = Ok false.
Proof.
  cbv zeta.
  destruct (SequenceBox_of_non_sequence (VInt 7) eq_refl)
    as (_ & Hitems & Hlen & _ & Hiter & Hcontains & _).
  split; [reflexivity |]. split; [exact Hitems |]. split; [exact Hlen |].
  split; [exact Hiter |]. split; [reflexivity |].
  exact (Hcontains eq_refl (VBool true)).
Defined.

(** C10 (as stated) fails on the set 1, 2, 3: the box does not iterate
    over the three elements of the set, and 1 is no member of the box
    although it is a member of the set. *)
Lemma SequenceBox_does_not_iterate_the_wrapped_set :
  let x := VSet [VInt 1; VInt 2; VInt 3] in
  iter_self (SequenceBox___init__ x) <> py_iter x
  /\ yielded (iter_self (SequenceBox___init__ x)) <> [VInt 1; VInt 2; VInt 3]
  /\ Sequence___contains__ (SequenceBox___init__ x) (VInt 1) = Ok false
  /\ existsb (fun v => py_eq v (VInt 1)) (yielded (py_iter x)) = true.
Proof.
  cbv zeta. repeat split; cbn; discriminate.
Qed.

(** ** Transformations through [_new] *)

Section Transformations.

Variable generator_repr : string.
Variable set_order : list object -> list object.

Lemma ordered_sequence_is_Sequence (xs : object) (l : list object) :
  ordered_sequence xs = Some l ->
  isinstance_Sequence xs = true /\ yielded (py_iter xs) = l /\ same_kind xs l = xs.
Proof.
  destruct xs; cbn; intros H; try discriminate H; injection H as <-; auto.
Qed.

Lemma ordered_sequence_same_kind (xs : object) (l : list object) :
  ordered_sequence (same_kind xs l) = Some l.
Proof. now destruct xs. Qed.

Lemma same_kind_idempotent (xs : object) (l m : list object) :
  same_kind (same_kind xs l) m = same_kind xs m.
Proof. now destruct xs. Qed.

(** [_new] on a list or tuple box rebuilds a sequence of the same kind
    from the values produced. *)
Lemma Box__new_ordered_sequence (xs : object) (l values : list object) :
  ordered_sequence xs = Some l ->
  Box__new generator_repr set_order (SequenceBox___init__ xs) (yield_all values)
  = Ok (SequenceBox___init__ (same_kind xs values)).
Proof.
  destruct xs; cbn; intros H; try discriminate H; reflexivity.
Qed.

Lemma len_self_ordered_sequence (xs : object) (l : list object) :
  ordered_sequence xs = Some l ->
  len_self (SequenceBox___init__ xs) = Ok (Z.of_nat (length l)).
Proof.
  destruct xs; cbn; intros H; try discriminate H; injection H as <-; reflexivity.
Qed.

Lemma items_ordered_sequence (xs : object) (l : list object) :
  ordered_sequence xs = Some l ->
  items (SequenceBox___init__ xs) = Some xs.
Proof.
  destruct xs; cbn; intros H; try discriminate H; reflexivity.
Qed.

(** *** [SequenceBox.reverse] *)

Lemma py_range_upto (n : nat) :
  py_range 0 (Z.of_nat n) 1 = Ok (map Z.of_nat (seq 0 n)).
Proof.
  unfold py_range. cbn [Z.eqb Z.ltb Z.compare].
  replace (Z.to_nat (if 0 <? Z.of_nat n then (Z.of_nat n - 0 - 1) / 1 + 1 else 0)) with n.
  - f_equal. apply map_ext. intros k. lia.
  - destruct (Z.ltb_spec 0 (Z.of_nat n)); [rewrite Z.div_1_r |]; lia.
Qed.

(** Reading valid positions one after the other produces the elements
    at these positions. *)
Lemma yield_indices_in_range (self : box) (its : object) (indices : list nat) :
  items self = Some its ->
  isinstance_Sequence its = true ->
  Forall (fun i => (i < length (yielded (py_iter its)))%nat) indices ->
  yield_indices self (map Z.of_nat indices)
  = yield_all (map (fun i => nth i (yielded (py_iter its)) VNone) indices).
Proof.
  intros Hits Hseq. induction 1 as [| i rest Hi _ IH]; cbn [map yield_indices].
  - reflexivity.
  - unfold SequenceBox___getitem__. rewrite Hits, (py_getitem_sequence its _ Hseq).
    rewrite (index_list_in_range _ i (nth i (yielded (py_iter its)) VNone))
      by (now apply nth_error_nth').
    now rewrite IH.
Qed.

Lemma map_nth_seq {A : Type} (l : list A) (d : A) :
  map (fun i => nth i l d) (seq 0 (length l)) = l.
Proof.
  induction l as [| x l IH]; cbn [length seq map nth].
  - reflexivity.
  - f_equal. rewrite <- seq_shift, map_map. exact IH.
Qed.

Lemma Sequence___reversed___ordered_sequence (xs : object) (l : list object) :
  ordered_sequence xs = Some l ->
  Sequence___reversed__ (SequenceBox___init__ xs) = yield_all (rev l).
Proof.
  intros Hxs. destruct (ordered_sequence_is_Sequence xs l Hxs) as (Hseq & Hels & _).
  unfold Sequence___reversed__.
  rewrite (len_self_ordered_sequence xs l Hxs). cbn [bind].
  rewrite py_range_upto, <- map_rev.
  rewrite (yield_indices_in_range _ xs _ (items_ordered_sequence xs l Hxs) Hseq).
  - rewrite Hels, map_rev, map_nth_seq. reflexivity.
  - rewrite Hels. apply Forall_forall. intros i Hin.
    apply in_rev, in_seq in Hin. lia.
Qed.

Lemma SequenceBox_reverse_ordered_sequence (xs : object) (l : list object) :
  ordered_sequence xs = Some l ->
  SequenceBox_reverse generator_repr set_order (SequenceBox___init__ xs)
  = Ok (SequenceBox___init__ (same_kind xs (rev l))).
Proof.
  intros Hxs. unfold SequenceBox_reverse.
  rewrite (Sequence___reversed___ordered_sequence xs l Hxs).
  exact (Box__new_ordered_sequence xs l (rev l) Hxs).
Qed.

(** A string is a sequence too, but [str] called on the generator
    returns its printed form: the characters are lost. *)
Lemma SequenceBox_reverse_str (s : string) :
  SequenceBox_reverse generator_repr set_order (SequenceBox___init__ (VStr s))
  = Ok (SequenceBox___init__ (VStr generator_repr)).
Proof. reflexivity. Qed.

(** C8.  Reversing a [SequenceBox] over a non-empty list or tuple [xs]
    twice gives back a box whose [items] is [xs]. *)
Theorem SequenceBox_reverse_involutive (xs : object) (l : list object) :
  ordered_sequence xs = Some l ->
  l <> [] ->
  exists once twice : box,
    SequenceBox_reverse generator_repr set_order (SequenceBox___init__ xs) = Ok once
    /\ items once = Some (same_kind xs (rev l))
    /\ SequenceBox_reverse generator_repr set_order once = Ok twice
    /\ items twice = Some xs.
Proof.
  intros Hxs _.
  exists (SequenceBox___init__ (same_kind xs (rev l))), (SequenceBox___init__ xs).
  destruct (ordered_sequence_is_Sequence xs l Hxs) as (_ & _ & Hkind).
  split; [now apply SequenceBox_reverse_ordered_sequence |].
  split; [exact (items_ordered_sequence _ _ (ordered_sequence_same_kind xs (rev l))) |].
  split.
  - rewrite (SequenceBox_reverse_ordered_sequence _ _ (ordered_sequence_same_kind xs (rev l))).
    now rewrite same_kind_idempotent, rev_involutive, Hkind.
  - exact (items_ordered_sequence xs l Hxs).
Qed.

(** *** [SequenceBox.chunk] *)

Lemma firstn_plus {A : Type} (a b : nat) (l : list A) :
  firstn (a + b) l = firstn a l ++ firstn b (skipn a l).
Proof.
  revert l. induction a as [| a IH]; intros [| x l]; cbn; try reflexivity.
  - now rewrite firstn_nil.
  - now rewrite IH.
Qed.

(** The slice from a position on, [n] long, is the window of the [n]
    next elements, cut at the end of the list. *)
Lemma slice_list_window {A : Type} (l : list A) (a : nat) (n : Z) :
  0 < n ->
  slice_list l (Z.of_nat a) (Z.of_nat a + n) = firstn (Z.to_nat n) (skipn a l).
Proof.
  intros Hn. unfold slice_list, clamp_index.
  destruct (Z.ltb_spec (Z.of_nat a) 0) as [Hneg | _]; [lia |].
  destruct (Z.ltb_spec (Z.of_nat a + n) 0) as [Hneg | _]; [lia |].
  destruct (Nat.le_gt_cases a (length l)) as [Hin | Hout].
  - replace (Z.to_nat (Z.min (Z.of_nat a) (Z.of_nat (length l)))) with a by lia.
    destruct (Nat.le_gt_cases (Z.to_nat n) (length l - a)) as [Hfull | Hshort].
    + f_equal. lia.
    + rewrite !firstn_all2; try reflexivity; rewrite length_skipn; lia.
  - replace (Z.to_nat (Z.min (Z.of_nat a + n) (Z.of_nat (length l))
                     - Z.min (Z.of_nat a) (Z.of_nat (length l)))) with 0%nat by lia.
    rewrite (skipn_all2 l (n := a)) by lia. now rewrite firstn_nil.
Qed.

(** The windows at 0, [n], 2[n], ... put end to end are a prefix of the
    list. *)
Lemma concat_windows {A : Type} (l : list A) (n c : nat) :
  concat (map (fun k => firstn n (skipn (k * n) l)) (seq 0 c)) = firstn (c * n) l.
Proof.
  induction c as [| c IH].
  - reflexivity.
  - rewrite seq_S, map_app, concat_app, IH. cbn [map concat Nat.add].
    rewrite app_nil_r. replace (S c * n)%nat with (c * n + n)%nat by lia.
    now rewrite firstn_plus.
Qed.

Lemma yield_slices_ordered_sequence (xs : object) (l : list object)
    (indices : list Z) (chunk_size : Z) :
  ordered_sequence xs = Some l ->
  yield_slices (SequenceBox___init__ xs) indices chunk_size
  = yield_all (map (fun i => same_kind xs (slice_list l i (i + chunk_size))) indices).
Proof.
  intros Hxs. induction indices as [| i rest IH]; cbn [yield_slices map].
  - reflexivity.
  - unfold SequenceBox___getitem___slice.
    rewrite (items_ordered_sequence xs l Hxs), IH.
    destruct xs; cbn in Hxs; try discriminate Hxs; injection Hxs as <-; reflexivity.
Qed.

(** The slices that [SequenceBox.chunk] cuts from a list of [len]
    elements: one at every multiple of [chunk_size] below [len]. *)
Lemma SequenceBox_chunk_ordered_sequence (xs : object) (l : list object) (chunk_size : Z) :
  ordered_sequence xs = Some l ->
  0 < chunk_size ->
  l <> [] ->
  SequenceBox_chunk generator_repr set_order (SequenceBox___init__ xs) chunk_size
  = Ok (SequenceBox___init__
          (same_kind xs
             (map (same_kind xs)
                (map (fun k => firstn (Z.to_nat chunk_size)
                                      (skipn (k * Z.to_nat chunk_size) l))
                     (seq 0 (S (Z.to_nat ((Z.of_nat (length l) - 1) / chunk_size)))))))).
Proof.
  intros Hxs Hn Hl. unfold SequenceBox_chunk.
  rewrite (len_self_ordered_sequence xs l Hxs). cbn [bind].
  assert (Hlen : 0 < Z.of_nat (length l)) by (destruct l; [congruence | cbn; lia]).
  unfold py_range.
  destruct (Z.eqb_spec chunk_size 0) as [| _]; [lia |].
  destruct (Z.ltb_spec 0 chunk_size) as [_ |]; [| lia].
  destruct (Z.ltb_spec 0 (Z.of_nat (length l))) as [_ |]; [| lia].
  cbn [bind].
  rewrite (yield_slices_ordered_sequence xs l _ chunk_size Hxs).
  rewrite (Box__new_ordered_sequence xs l _ Hxs).
  do 3 f_equal.
  assert (Hq : 0 <= (Z.of_nat (length l) - 1) / chunk_size)
    by (apply Z.div_pos; lia).
  replace (Z.to_nat ((Z.of_nat (length l) - 0 - 1) / chunk_size + 1))
    with (S (Z.to_nat ((Z.of_nat (length l) - 1) / chunk_size)))
    by (rewrite Z.sub_0_r; lia).
  rewrite <- map_map with (g := same_kind xs). f_equal.
  rewrite map_map. apply map_ext. intros k.
  replace (0 + Z.of_nat k * chunk_size) with (Z.of_nat (k * Z.to_nat chunk_size)) by lia.
  now apply slice_list_window.
Qed.

(** C6.  For a list or tuple [xs] of at least two elements and
    [0 < n < len(xs)], [SequenceBox(xs).chunk(n)] holds the slices
    [xs[0:n]], [xs[n:2n]], ... in order, each of the kind of [xs]:
    together they are [xs], there are [ceil(len(xs) / n)] of them, all but
    the last have [n] elements and the last has between 1 and [n].
    [SequenceBox([1, 2, 3, 4, 5]).chunk(2)] holds [[1, 2]], [[3, 4]],
    [[5]]. *)
Theorem SequenceBox_chunk_exhaustive (xs : object) (l : list object) (n : Z) :
  ordered_sequence xs = Some l ->
  (2 <= length l)%nat ->
  0 < n < Z.of_nat (length l) ->
  exists groups : list (list object),
    SequenceBox_chunk generator_repr set_order (SequenceBox___init__ xs) n
    = Ok (SequenceBox___init__ (same_kind xs (map (same_kind xs) groups)))
    /\ groups = map (fun k => slice_list l (Z.of_nat k * n) (Z.of_nat k * n + n))
                    (seq 0 (length groups))
    /\ concat groups = l
    /\ Z.of_nat (length groups) = (Z.of_nat (length l) + n - 1) / n
    /\ (forall k, (S k < length groups)%nat -> Z.of_nat (length (nth k groups [])) = n)
    /\ 0 < Z.of_nat (length (last groups [])) <= n
    /\ SequenceBox_chunk generator_repr set_order
         (SequenceBox___init__ (VList (map VInt [1; 2; 3; 4; 5]))) 2
       = Ok (SequenceBox___init__
               (VList [VList [VInt 1; VInt 2]; VList [VInt 3; VInt 4]; VList [VInt 5]])).
Proof.
  intros Hxs Hlen Hn.
  set (size := Z.to_nat n).
  set (q := Z.to_nat ((Z.of_nat (length l) - 1) / n)).
  set (window := fun k => firstn size (skipn (k * size) l)).
  assert (Hsize : Z.of_nat size = n) by (unfold size; lia).
  assert (Hq : Z.of_nat q = (Z.of_nat (length l) - 1) / n)
    by (unfold q; apply Z2Nat.id, Z.div_pos; lia).
  assert (Hlow : (q * size <= length l - 1)%nat).
  { pose proof (Z.mul_div_le (Z.of_nat (length l) - 1) n ltac:(lia)). nia. }
  assert (Hhigh : (length l - 1 < S q * size)%nat).
  { pose proof (Z.mul_succ_div_gt (Z.of_nat (length l) - 1) n ltac:(lia)). nia. }
  assert (Hwindow : forall k, length (window k) = Nat.min size (length l - k * size)).
  { intros k. unfold window. now rewrite length_firstn, length_skipn. }
  exists (map window (seq 0 (S q))).
  split.
  { apply SequenceBox_chunk_ordered_sequence; [exact Hxs | lia | ].
    destruct l; [cbn in Hlen; lia | discriminate]. }
  rewrite length_map, length_seq.
  split.
  { apply map_ext. intros k. unfold window, size.
    replace (Z.of_nat k * n) with (Z.of_nat (k * Z.to_nat n)) by lia.
    symmetry. apply slice_list_window. lia. }
  split.
  { unfold window. rewrite concat_windows. apply firstn_all2. lia. }
  split.
  { replace (Z.of_nat (length l) + n - 1) with (Z.of_nat (length l) - 1 + 1 * n) by lia.
    rewrite Z.div_add by lia. lia. }
  split.
  { intros k Hk.
    rewrite (nth_indep _ [] (window 0%nat)) by (rewrite length_map, length_seq; lia).
    rewrite map_nth, seq_nth by lia. rewrite Hwindow. cbn [Nat.add].
    assert ((S k * size <= q * size)%nat) by (apply Nat.mul_le_mono_r; lia).
    lia. }
  split.
  { rewrite seq_S, map_app. cbn [map Nat.add]. rewrite last_last, Hwindow. lia. }
  reflexivity.
Qed.

(** *** Kind preservation *)

(** Calling a type returns an instance of that type. *)
Lemma construct_type (t : pytype) (it : iteration) (container : object) :
  construct generator_repr set_order t it = Ok container ->
  type_of container = t.
Proof.
  destruct t; cbn; unfold after_all, bind;
    repeat match goal with
           | |- context [match ?r with _ => _ end] => destruct r
           end;
    intros H; try discriminate H; injection H as <-; reflexivity.
Qed.

(** Whatever [_new] returns has the class of [self] and wraps an object
    of the type of [self._items]. *)
Lemma Box__new_kind (self made : box) (it : iteration) :
  Box__new generator_repr set_order self it = Ok made ->
  cls made = cls self /\ type_of (_items made) = type_of (_items self).
Proof.
  unfold Box__new, item_type.
  destruct (construct _ _ _ it) as [container |] eqn:Hmake; cbn [bind];
    intros H; [| discriminate H]. injection H as <-.
  apply construct_type in Hmake.
  unfold instantiate, SequenceBox___init__, Box___init__.
  destruct (cls self) eqn:Hcls; cbn; auto.
  destruct (isinstance_Sequence container); cbn; auto.
Qed.

Lemma map_values_identity (values : list object) (tail : option exn) :
  map_values identity values tail = {| yielded := values; raised := tail |}.
Proof.
  induction values as [| value rest IH]; cbn; [reflexivity |].
  now rewrite IH.
Qed.

(** C5 (amended).  [map] builds the new container by calling the type of
    [_items] on the values produced: whenever that call succeeds, the new
    box has the class of the old one and its [_items] has the type of the
    old [_items].  The same holds for every result of [_new].  For a list
    or tuple [xs], [SequenceBox(xs).map(identity)] succeeds and its
    [items] is [xs], of the type of [xs]. *)
Theorem Box_map_preserves_kind (self made mapped : box) (it : iteration)
    (callback : object -> res object) (xs : object) (l : list object) :
  Box__new generator_repr set_order self it = Ok made ->
  Box_map generator_repr set_order self callback = Ok mapped ->
  ordered_sequence xs = Some l ->
  (cls made = cls self /\ type_of (_items made) = type_of (_items self))
  /\ (cls mapped = cls self /\ type_of (_items mapped) = type_of (_items self))
  /\ Box_map generator_repr set_order (SequenceBox___init__ xs) identity
     = Ok (SequenceBox___init__ xs)
  /\ option_map type_of (items (SequenceBox___init__ xs)) = Some (type_of xs).
Proof.
  intros Hmade Hmapped Hxs.
  split; [exact (Box__new_kind self made it Hmade) |].
  split; [exact (Box__new_kind self mapped _ Hmapped) |].
  destruct (ordered_sequence_is_Sequence xs l Hxs) as (_ & _ & Hkind).
  split.
  - unfold Box_map. rewrite (iter_self_ordered_sequence xs l Hxs), map_values_identity.
    cbn [yield_all yielded raised].
    rewrite (Box__new_ordered_sequence xs l l Hxs : Box__new _ _ _ {| yielded := l; raised := None |} = _).
    now rewrite Hkind.
  - now rewrite (items_ordered_sequence xs l Hxs).
Qed.

End Transformations.

Lemma SequenceBox_reverse_involutive_witness :
  let xs := VTuple [VInt 1; VStr "two"; VNone] in
  exists once twice : box,
    SequenceBox_reverse example_repr insertion_order (SequenceBox___init__ xs) = Ok once
    /\ items once = Some (VTuple [VNone; VStr "two"; VInt 1])
    /\ SequenceBox_reverse example_repr insertion_order once = Ok twice
    /\ items twice = Some xs.
Proof.
  cbv zeta.
  apply (SequenceBox_reverse_involutive example_repr insertion_order
           (VTuple [VInt 1; VStr "two"; VNone]) [VInt 1; VStr "two"; VNone]);
    [reflexivity | discriminate].
Defined.

Lemma SequenceBox_chunk_exhaustive_witness :
  let xs := VTuple (map VInt [1; 2; 3; 4; 5; 6; 7]) in
  exists groups : list (list object),
    SequenceBox_chunk example_repr insertion_order (SequenceBox___init__ xs) 3
    = Ok (SequenceBox___init__ (VTuple (map VTuple groups)))
    /\ concat groups = map VInt [1; 2; 3; 4; 5; 6; 7]
    /\ Z.of_nat (length groups) = 3.
Proof.
  cbv zeta.
  destruct (SequenceBox_chunk_exhaustive example_repr insertion_order
              (VTuple (map VInt [1; 2; 3; 4; 5; 6; 7])) (map VInt [1; 2; 3; 4; 5; 6; 7]) 3)
    as (groups & Hchunk & _ & Hconcat & Hcount & _);
    [reflexivity | cbn; lia | cbn; lia |].
  exists groups. split; [exact Hchunk |]. split; [exact Hconcat | exact Hcount].
Defined.

Lemma Box_map_preserves_kind_witness :
  let self := Box___init__ CMutableSetBox (VSet [VInt 1; VInt 2]) in
  let xs := VTuple [VInt 1; VInt 2; VInt 3] in
  Box_map example_repr insertion_order self (fun v => py_add v (VInt 1))
  = Ok (Box___init__ CMutableSetBox (VSet [VInt 2; VInt 3]))
  /\ Box_map example_repr insertion_order (SequenceBox___init__ xs) identity
     = Ok (SequenceBox___init__ xs)
  /\ option_map type_of (items (SequenceBox___init__ xs)) = Some Ttuple.
Proof.
  cbv zeta.
  destruct (Box_map_preserves_kind example_repr insertion_order
              (Box___init__ CMutableSetBox (VSet [VInt 1; VInt 2]))
              (Box___init__ CMutableSetBox (VSet [VInt 7]))
              (Box___init__ CMutableSetBox (VSet [VInt 2; VInt 3]))
              (yield_all [VInt 7; VInt 7])
              (fun v => py_add v (VInt 1))
              (VTuple [VInt 1; VInt 2; VInt 3]) [VInt 1; VInt 2; VInt 3])
    as (_ & _ & Hmap & Hitems);
    [reflexivity | reflexivity | reflexivity |].
  split; [reflexivity |]. split; [exact Hmap | exact Hitems].
Defined.

(** C5 (as stated) fails on sets and mappings.  A [SequenceBox] around
    the set 1, 2, 3 has a list as [items], and its [map] raises, since the
    one value produced, the set itself, cannot be an element of a set; a
    [MappingBox] around a dict raises too, since [dict] is called on the
    keys. *)
Lemma Box_map_identity_loses_kind :
  let xs := VSet [VInt 1; VInt 2; VInt 3] in
  ~ (exists mapped : box,
       Box_map example_repr insertion_order (SequenceBox___init__ xs) identity = Ok mapped
       /\ option_map type_of (items mapped) = Some (type_of xs))
  /\ Box_map example_repr insertion_order (SequenceBox___init__ xs) identity = Err TypeError
  /\ option_map type_of (items (SequenceBox___init__ xs)) = Some Tlist
  /\ Box_map example_repr insertion_order
       (Box___init__ CMappingBox (VDict [(VStr "a", VInt 1)])) identity
     = Err ValueError.
Proof.
  cbv zeta. split; [| repeat split].
  intros (mapped & Hmap & _). cbn in Hmap. discriminate Hmap.
Qed.

(** * Further properties of the methods *)

(** ** Boxes of any class around a list or tuple *)

Lemma iter_self_instantiate (c : box_class) (xs : object) (l : list object) :
  ordered_sequence xs = Some l ->
  iter_self (instantiate c xs) = yield_all l.
Proof.
  intros Hxs. destruct c; try (now apply iter_self_ordered_sequence);
    destruct xs; cbn in Hxs; try discriminate Hxs; injection Hxs as <-; reflexivity.
Qed.

Lemma instantiate_same_kind (c : box_class) (xs : object) (l : list object) :
  ordered_sequence xs = Some l -> instantiate c (same_kind xs l) = instantiate c xs.
Proof.
  intros Hxs. now destruct (ordered_sequence_is_Sequence xs l Hxs) as (_ & _ & ->).
Qed.

Section ListBoxes.

Variable generator_repr : string.
Variable set_order : list object -> list object.

(** On a box around a list or tuple, [_new] fails with the exception of
    the iteration it consumes, and otherwise wraps a container of the same
    kind holding the values produced. *)
Lemma Box__new_instantiate (c : box_class) (xs : object) (l : list object)
    (it : iteration) :
  ordered_sequence xs = Some l ->
  Box__new generator_repr set_order (instantiate c xs) it
  = match raised it with
    | None => Ok (instantiate c (same_kind xs (yielded it)))
    | Some e => Err e
    end.
Proof.
  intros Hxs. unfold Box__new, item_type.
  destruct xs; cbn in Hxs; try discriminate Hxs;
    destruct c; cbn; unfold after_all; destruct (raised it); reflexivity.
Qed.

(** *** [Box.map] *)

Lemma map_values_fusion (f g : object -> res object) (values : list object)
    (tail : option exn) :
  raised (map_values f values None) = None ->
  map_values g (yielded (map_values f values None)) tail
  = map_values (fun v => w <- f v ;; g w) values tail.
Proof.
  induction values as [| value rest IH]; cbn; intros Hok; [reflexivity |].
  destruct (f value) as [w | e]; cbn in *; [| discriminate Hok].
  now rewrite (IH Hok).
Qed.

Lemma map_values_length (f : object -> res object) (values : list object) :
  raised (map_values f values None) = None ->
  length (yielded (map_values f values None)) = length values.
Proof.
  induction values as [| value rest IH]; cbn; intros Hok; [reflexivity |].
  destruct (f value) as [w | e]; cbn in *; [| discriminate Hok].
  now rewrite (IH Hok).
Qed.

(** X1.  Mapping [g] over the result of mapping [f] over a list or tuple
    box is mapping "[f], then [g]" over the box, errors included; a map
    that succeeds keeps the number of elements. *)
Theorem Box_map_fusion (c : box_class) (xs : object) (l : list object)
    (f g : object -> res object) (mapped : box) :
  ordered_sequence xs = Some l ->
  Box_map generator_repr set_order (instantiate c xs) f = Ok mapped ->
  Box_map generator_repr set_order mapped g
  = Box_map generator_repr set_order (instantiate c xs) (fun v => w <- f v ;; g w)
  /\ length (yielded (iter_self mapped)) = length l.
Proof.
  intros Hxs. unfold Box_map at 1.
  rewrite (iter_self_instantiate c xs l Hxs). cbn [yield_all yielded raised].
  rewrite (Box__new_instantiate c xs l _ Hxs).
  destruct (raised (map_values f l None)) eqn:Hok; intros H; [discriminate H |].
  injection H as <-.
  pose proof (ordered_sequence_same_kind xs (yielded (map_values f l None))) as Hkind.
  unfold Box_map.
  rewrite (iter_self_instantiate c _ _ Hkind), (iter_self_instantiate c xs l Hxs).
  cbn [yield_all yielded raised].
  rewrite (Box__new_instantiate c _ _ _ Hkind), (Box__new_instantiate c xs l _ Hxs).
  rewrite (map_values_fusion f g l None Hok), same_kind_idempotent.
  split; [reflexivity | now apply map_values_length].
Qed.

(** *** [Box.filter] *)

(** A second pass of the same callback over what the first pass kept. *)
Lemma filter_values_again (callback : object -> res object) (values : list object) :
  raised (filter_values callback values None) = None ->
  filter_values callback (yielded (filter_values callback values None)) None
  = filter_values callback values None
  /\ Forall (fun v => exists keep, callback v = Ok keep /\ py_bool keep = true)
            (yielded (filter_values callback values None))
  /\ (length (yielded (filter_values callback values None)) <= length values)%nat.
Proof.
  induction values as [| value rest IH]; cbn; intros Hok.
  - repeat split; [constructor | lia].
  - destruct (callback value) as [keep | e] eqn:Hcall; cbn in *; [| discriminate Hok].
    destruct (py_bool keep) eqn:Hkeep; cbn in *.
    + destruct (IH Hok) as (Hagain & Hall & Hlen).
      rewrite Hcall, Hkeep, Hagain. repeat split; [| lia].
      constructor; [now exists keep | exact Hall].
    + destruct (IH Hok) as (Hagain & Hall & Hlen). repeat split; auto.
Qed.

(** X2.  Filtering a list or tuple box a second time with the same
    callback changes nothing: every element that [filter] keeps is one
    for which the callback answered something true, and there are no more
    of them than before. *)
Theorem Box_filter_idempotent (c : box_class) (xs : object) (l : list object)
    (callback : object -> res object) (filtered : box) :
  ordered_sequence xs = Some l ->
  Box_filter generator_repr set_order (instantiate c xs) (Some callback) = Ok filtered ->
  Box_filter generator_repr set_order filtered (Some callback) = Ok filtered
  /\ Forall (fun v => exists keep, callback v = Ok keep /\ py_bool keep = true)
            (yielded (iter_self filtered))
  /\ (length (yielded (iter_self filtered)) <= length l)%nat.
Proof.
  intros Hxs. unfold Box_filter at 1.
  rewrite (iter_self_instantiate c xs l Hxs). cbn [yield_all yielded raised].
  rewrite (Box__new_instantiate c xs l _ Hxs).
  destruct (raised (filter_values callback l None)) eqn:Hok; intros H; [discriminate H |].
  injection H as <-.
  pose proof (ordered_sequence_same_kind xs (yielded (filter_values callback l None)))
    as Hkind.
  destruct (filter_values_again callback l Hok) as (Hagain & Hall & Hlen).
  unfold Box_filter.
  rewrite (iter_self_instantiate c _ _ Hkind). cbn [yield_all yielded raised].
  rewrite (Box__new_instantiate c _ _ _ Hkind), Hagain, Hok, same_kind_idempotent.
  auto.
Qed.

(** X3.  Without a callback, [filter] keeps the elements that are true
    as [bool] sees them, in their order. *)
Theorem Box_filter_default_is_truthiness (c : box_class) (xs : object) (l : list object) :
  ordered_sequence xs = Some l ->
  Box_filter generator_repr set_order (instantiate c xs) None
  = Ok (instantiate c (same_kind xs (filter py_bool l))).
Proof.
  intros Hxs. unfold Box_filter.
  rewrite (iter_self_instantiate c xs l Hxs). cbn [yield_all yielded raised].
  rewrite (Box__new_instantiate c xs l _ Hxs).
  assert (H : filter_values (fun v => Ok (VBool (py_bool v))) l None
              = yield_all (filter py_bool l)).
  { clear. induction l as [| value rest IH]; cbn; [reflexivity |].
    rewrite IH. now destruct (py_bool value). }
  now rewrite H.
Qed.

End ListBoxes.

(** ** Text keys *)

(** Only a string equals a string. *)
Lemma py_eq_text (a : object) (key : string) :
  py_eq a (VStr key) = true <-> a = VStr key.
Proof.
  destruct a; cbn; try (split; [discriminate | discriminate]).
  rewrite String.eqb_eq. split; [now intros -> | now intros [= ->]].
Qed.

Lemma dict_lookup_text_absent (kv : list (object * object)) (key : string) :
  ~ In (VStr key) (map fst kv) -> dict_lookup kv (VStr key) = Err KeyError.
Proof.
  induction kv as [| [k v] rest IH]; cbn; intros Hnot; [reflexivity |].
  destruct (py_eq k (VStr key)) eqn:Heq.
  - apply py_eq_text in Heq. tauto.
  - apply IH. tauto.
Qed.

(** ** [Box.where] and [Box.first_where] *)

Section Where.

Variable generator_repr : string.
Variable set_order : list object -> list object.
Variable hasattr : object -> string -> bool.
Variable getattr : object -> string -> object.
Variable operator_call : operator -> object -> object -> res object.

(** The search of [first_where] stops at the first element that the
    filter of [where] keeps. *)
Lemma first_where_loop_filter_values (values : list object) (key : string)
    (operation : option string) (value : object) :
  raised (filter_values
            (fun obj => Box__where hasattr getattr operator_call obj key operation value)
            values None) = None ->
  first_where_loop hasattr getattr operator_call values key operation value
  = Ok (hd_error
          (yielded (filter_values
                      (fun obj => Box__where hasattr getattr operator_call obj key
                                    operation value)
                      values None))).
Proof.
  induction values as [| item rest IH]; cbn; intros Hok; [reflexivity |].
  destruct (Box__where hasattr getattr operator_call item key operation value)
    as [matches | e]; cbn in *; [| discriminate Hok].
  destruct (py_bool matches); cbn in *; [reflexivity | exact (IH Hok)].
Qed.

(** X4.  On a list or tuple box for which [where] succeeds,
    [first_where] with the same arguments is [first] of the box that
    [where] returns: its first element, and [None] or [IndexError] when
    nothing matched. *)
Theorem Box_first_where_is_first_of_where (c : box_class) (xs : object)
    (l : list object) (key : string) (operation : option string) (value : object)
    (or_fail : bool) (selected : box) :
  ordered_sequence xs = Some l ->
  Box_where generator_repr set_order hasattr getattr operator_call
    (instantiate c xs) key operation value = Ok selected ->
  Box_first_where hasattr getattr operator_call (instantiate c xs) key operation value
    or_fail
  = Box_first selected or_fail.
Proof.
  intros Hxs. unfold Box_where, Box_filter, Box_first_where, Box_first.
  rewrite (iter_self_instantiate c xs l Hxs). cbn [yield_all yielded raised].
  rewrite (Box__new_instantiate generator_repr set_order c xs l _ Hxs).
  set (kept := filter_values _ l None).
  destruct (raised kept) eqn:Hok; intros H; [discriminate H |]. injection H as <-.
  rewrite (iter_self_instantiate c _ _ (ordered_sequence_same_kind xs (yielded kept))).
  rewrite (first_where_loop_filter_values l key operation value Hok).
  fold kept. cbn [bind yield_all yielded raised].
  now destruct (yielded kept).
Qed.

(** X5.  An operator outside the table is noticed only when an element
    is examined: on an empty list or tuple box [where] returns an empty
    box and [first_where] returns [None], while on a box whose first
    element carries the attribute both raise [ValueError]. *)
Theorem Box_where_invalid_operator (c : box_class) (nothing xs : object)
    (first : object) (rest : list object) (key operation : string) (value : object) :
  mapping_get _OPERATOR_MAPPING operation = None ->
  ordered_sequence nothing = Some [] ->
  ordered_sequence xs = Some (first :: rest) ->
  hasattr first key = true ->
  Box_where generator_repr set_order hasattr getattr operator_call
    (instantiate c nothing) key (Some operation) value = Ok (instantiate c nothing)
  /\ Box_first_where hasattr getattr operator_call
       (instantiate c nothing) key (Some operation) value false = Ok VNone
  /\ Box_where generator_repr set_order hasattr getattr operator_call
       (instantiate c xs) key (Some operation) value = Err ValueError
  /\ Box_first_where hasattr getattr operator_call
       (instantiate c xs) key (Some operation) value false = Err ValueError.
Proof.
  intros Hop Hnothing Hxs Hattr.
  unfold Box_where, Box_filter, Box_first_where.
  rewrite (iter_self_instantiate c nothing [] Hnothing),
          (iter_self_instantiate c xs _ Hxs).
  cbn [yield_all yielded raised].
  rewrite (Box__new_instantiate generator_repr set_order c nothing [] _ Hnothing),
          (Box__new_instantiate generator_repr set_order c xs _ _ Hxs).
  cbn [filter_values first_where_loop yielded raised bind].
  unfold Box__where. rewrite Hattr. cbn [bind]. rewrite Hop.
  cbn [bind raise_at_once raised].
  rewrite (instantiate_same_kind c nothing [] Hnothing).
  repeat split.
Qed.

(** X6.  The attribute or key is resolved before the operator is looked
    at: whatever the operator, known or not, a dict element that has
    neither the attribute nor the key raises [KeyError], and an element
    that is no mapping and lacks the attribute raises [ValueError]. *)
Theorem Box__where_unresolved_key (kv : list (object * object)) (obj : object)
    (key : string) (operation : option string) (value : object) :
  hasattr (VDict kv) key = false ->
  ~ In (VStr key) (map fst kv) ->
  hasattr obj key = false ->
  isinstance_Mapping obj = false ->
  Box__where hasattr getattr operator_call (VDict kv) key operation value = Err KeyError
  /\ Box__where hasattr getattr operator_call obj key operation value = Err ValueError.
Proof.
  intros Hdict Habsent Hobj Hmapping. unfold Box__where.
  rewrite Hdict, Hobj, Hmapping. cbn [isinstance_Mapping py_getitem hashable].
  now rewrite (dict_lookup_text_absent kv key Habsent).
Qed.

End Where.

(** ** [Box.merge], [Box.zip] and [Box.diff] *)

Section SecondIterable.

Variable generator_repr : string.
Variable set_order : list object -> list object.

Lemma iter_other_ordered_sequence (ys : object) (m : list object) :
  ordered_sequence ys = Some m ->
  iter_other (Plain ys) = yield_all m
  /\ iter_other (Boxed (SequenceBox___init__ ys)) = yield_all m.
Proof.
  intros Hys. split; [| now apply iter_self_ordered_sequence].
  destruct ys; cbn in Hys; try discriminate Hys; injection Hys as <-; reflexivity.
Qed.

Lemma Box_merge_instantiate (c : box_class) (xs : object) (l : list object)
    (other : iterable) :
  ordered_sequence xs = Some l ->
  Box_merge generator_repr set_order (instantiate c xs) other
  = match raised (iter_other other) with
    | None => Ok (instantiate c (same_kind xs (l ++ yielded (iter_other other))))
    | Some e => Err e
    end.
Proof.
  intros Hxs. unfold Box_merge.
  rewrite (iter_self_instantiate c xs l Hxs).
  now rewrite (Box__new_instantiate generator_repr set_order c xs l _ Hxs).
Qed.

(** X7.  [merge] appends the elements of the argument to those of a list
    or tuple box, keeping the kind of the box; a list or tuple argument
    gives the same box whether it is passed as it is or wrapped in a
    [SequenceBox]; and merging twice is merging the concatenation. *)
Theorem Box_merge_appends (c : box_class) (xs ys zs : object) (l m n : list object) :
  ordered_sequence xs = Some l ->
  ordered_sequence ys = Some m ->
  ordered_sequence zs = Some n ->
  Box_merge generator_repr set_order (instantiate c xs) (Plain ys)
  = Ok (instantiate c (same_kind xs (l ++ m)))
  /\ Box_merge generator_repr set_order (instantiate c xs) (Boxed (SequenceBox___init__ ys))
     = Box_merge generator_repr set_order (instantiate c xs) (Plain ys)
  /\ (merged <- Box_merge generator_repr set_order (instantiate c xs) (Plain ys) ;;
      Box_merge generator_repr set_order merged (Plain zs))
     = Box_merge generator_repr set_order (instantiate c xs) (Plain (same_kind ys (m ++ n))).
Proof.
  intros Hxs Hys Hzs.
  destruct (iter_other_ordered_sequence ys m Hys) as (Hplain & Hboxed).
  destruct (iter_other_ordered_sequence zs n Hzs) as (Hzplain & _).
  destruct (iter_other_ordered_sequence _ _ (ordered_sequence_same_kind ys (m ++ n)))
    as (Hboth & _).
  rewrite !(Box_merge_instantiate c xs l _ Hxs), Hplain, Hboxed, Hboth.
  cbn [yield_all yielded raised bind].
  rewrite (Box_merge_instantiate c _ _ _ (ordered_sequence_same_kind xs (l ++ m))), Hzplain.
  cbn [yield_all yielded raised].
  now rewrite same_kind_idempotent, app_assoc.
Qed.

Lemma zip_values_combine (first second : list object) :
  zip_values first None second None
  = yield_all (map (fun p => VTuple [fst p; snd p]) (combine first second)).
Proof.
  revert second. induction first as [| x first IH]; intros [| y second]; cbn;
    try reflexivity.
  now rewrite IH.
Qed.

(** X8.  [zip] pairs the elements of a list or tuple box with those of a
    list or tuple argument, position by position, and stops at the
    shorter of the two: the result has [min(len(self), len(other))]
    pairs, and the box form of the argument gives the same result. *)
Theorem Box_zip_truncates (c : box_class) (xs ys : object) (l m : list object) :
  ordered_sequence xs = Some l ->
  ordered_sequence ys = Some m ->
  exists pairs : list object,
    Box_zip generator_repr set_order (instantiate c xs) (Plain ys)
    = Ok (instantiate c (same_kind xs pairs))
    /\ Box_zip generator_repr set_order (instantiate c xs)
         (Boxed (SequenceBox___init__ ys))
       = Ok (instantiate c (same_kind xs pairs))
    /\ pairs = map (fun p => VTuple [fst p; snd p]) (combine l m)
    /\ length pairs = Nat.min (length l) (length m).
Proof.
  intros Hxs Hys.
  destruct (iter_other_ordered_sequence ys m Hys) as (Hplain & Hboxed).
  exists (map (fun p => VTuple [fst p; snd p]) (combine l m)).
  unfold Box_zip. rewrite (iter_self_instantiate c xs l Hxs), Hboxed.
  assert (Heager : match ys with
                   | VList _ | VTuple _ | VSet _ | VDict _ | VStr _ =>
                     Ok (iter_other (Plain ys))
                   | _ => Err TypeError
                   end = Ok (yield_all m)).
  { rewrite Hplain. destruct ys; cbn in Hys; try discriminate Hys; reflexivity. }
  rewrite Heager. cbn [bind yield_all yielded raised].
  rewrite (Box__new_instantiate generator_repr set_order c xs l _ Hxs), zip_values_combine.
  cbn [yield_all yielded raised].
  repeat split. now rewrite length_map, length_combine.
Qed.

(** X9.  [zip] refuses an argument that cannot be iterated at once, even
    when the box is empty and no pair would be asked for; [merge] meets
    the same argument only after the elements of the box, which is still
    an error for a list or tuple box. *)
Theorem Box_zip_refuses_at_once (self : box) (c : box_class) (xs : object)
    (l : list object) (other : object) :
  raised (py_iter other) = Some TypeError ->
  ordered_sequence xs = Some l ->
  Box_zip generator_repr set_order self (Plain other) = Err TypeError
  /\ Box_merge generator_repr set_order (instantiate c xs) (Plain other) = Err TypeError.
Proof.
  intros Hother Hxs. split.
  - unfold Box_zip. destruct other; cbn in Hother; try discriminate Hother; reflexivity.
  - rewrite (Box_merge_instantiate c xs l _ Hxs). cbn [iter_other]. now rewrite Hother.
Qed.

Lemma contains_loop_existsb (values : list object) (value : object) :
  contains_loop values None value = Ok (existsb (fun x => py_eq x value) values).
Proof.
  induction values as [| x rest IH]; cbn; [reflexivity |].
  destruct (py_eq x value); [reflexivity | exact IH].
Qed.

(** Membership in a list or tuple, plain or in a [SequenceBox]. *)
Lemma contains_other_ordered_sequence (ys : object) (m : list object) (value : object) :
  ordered_sequence ys = Some m ->
  contains_other (Plain ys) value = Ok (existsb (fun x => py_eq x value) m)
  /\ contains_other (Boxed (SequenceBox___init__ ys)) value
     = Ok (existsb (fun x => py_eq x value) m).
Proof.
  intros Hys. split.
  - destruct ys; cbn in Hys; try discriminate Hys; injection Hys as <-; reflexivity.
  - cbn [contains_other]. unfold contains_self.
    replace (cls (SequenceBox___init__ ys)) with CSequenceBox
      by (unfold SequenceBox___init__; now destruct (isinstance_Sequence ys)).
    unfold Sequence___contains__.
    pose proof (iter_self_ordered_sequence ys m Hys) as Hiter.
    unfold iter_self in Hiter.
    replace (cls (SequenceBox___init__ ys)) with CSequenceBox in Hiter
      by (unfold SequenceBox___init__; now destruct (isinstance_Sequence ys)).
    rewrite Hiter. apply contains_loop_existsb.
Qed.

Lemma diff_values_filter (other : iterable) (m values : list object) :
  (forall value, contains_other other value = Ok (existsb (fun x => py_eq x value) m)) ->
  diff_values other values None
  = yield_all (filter (fun value => negb (existsb (fun x => py_eq x value) m)) values).
Proof.
  intros Hin. induction values as [| value rest IH]; cbn; [reflexivity |].
  rewrite Hin, IH. now destruct (existsb _ m).
Qed.

(** X10.  On a list or tuple box whose elements equal themselves,
    [diff] keeps, in their order, the elements that equal no element of
    the list or tuple argument; the argument may be given as it is or in a
    [SequenceBox], with the same result; nothing that is left is found in
    the argument, and the difference with an empty argument is the box
    itself. *)
Theorem Box_diff_removes_members (c : box_class) (xs ys nothing : object)
    (l m : list object) :
  ordered_sequence xs = Some l ->
  Forall (fun v => py_eq v v = true) l ->
  ordered_sequence ys = Some m ->
  ordered_sequence nothing = Some [] ->
  exists kept : list object,
    Box_diff generator_repr set_order (instantiate c xs) (Plain ys)
    = Ok (instantiate c (same_kind xs kept))
    /\ Box_diff generator_repr set_order (instantiate c xs)
         (Boxed (SequenceBox___init__ ys))
       = Ok (instantiate c (same_kind xs kept))
    /\ kept = filter (fun value => negb (existsb (fun x => py_eq x value) m)) l
    /\ Forall (fun value => contains_other (Plain ys) value = Ok false) kept
    /\ Box_diff generator_repr set_order (instantiate c xs) (Plain nothing)
       = Ok (instantiate c xs).
Proof.
  intros Hxs _ Hys Hnothing.
  exists (filter (fun value => negb (existsb (fun x => py_eq x value) m)) l).
  unfold Box_diff. rewrite (iter_self_instantiate c xs l Hxs).
  cbn [yield_all yielded raised].
  rewrite !(Box__new_instantiate generator_repr set_order c xs l _ Hxs).
  rewrite (diff_values_filter (Plain ys) m l)
    by (intros value; apply (contains_other_ordered_sequence ys m value Hys)).
  rewrite (diff_values_filter (Boxed (SequenceBox___init__ ys)) m l)
    by (intros value; apply (contains_other_ordered_sequence ys m value Hys)).
  rewrite (diff_values_filter (Plain nothing) [] l)
    by (intros value; apply (contains_other_ordered_sequence nothing [] value Hnothing)).
  cbn [yield_all yielded raised existsb negb].
  repeat split.
  - apply Forall_forall. intros value Hin. apply filter_In in Hin as (_ & Hout).
    rewrite (proj1 (contains_other_ordered_sequence ys m value Hys)).
    now destruct (existsb _ m).
  - replace (filter (fun _ : object => true) l) with l
      by (clear; induction l as [| x l IH]; cbn; [| rewrite <- IH]; reflexivity).
    now rewrite (instantiate_same_kind c xs l Hxs).
Qed.

End SecondIterable.

(** ** [Box.each], [Box.first] and [Box.reduce] *)

Lemma each_loop_recording (values log : list object) (tail : option exn) :
  each_loop (fun value (seen : list object) => (seen ++ [value], None)) values tail log
  = (log ++ values, tail).
Proof.
  revert log. induction values as [| value rest IH]; intros log; cbn.
  - now rewrite app_nil_r.
  - now rewrite IH, <- app_assoc.
Qed.

Lemma each_loop_stops (S : Type) (callback : object -> S -> S * option exn)
    (before after : list object) (value : object) (tail : option exn)
    (s : S) (e : exn) :
  (forall v s', In v before -> snd (callback v s') = None) ->
  (forall s', snd (callback value s') = Some e) ->
  each_loop callback (before ++ value :: after) tail s
  = callback value (fst (each_loop callback before None s)).
Proof.
  intros Hbefore Hvalue. revert s.
  induction before as [| v before IH]; intros s; cbn.
  - specialize (Hvalue s). destruct (callback value s) as [s' [e' |]]; cbn in *;
      [reflexivity | discriminate Hvalue].
  - pose proof (Hbefore v s (or_introl eq_refl)) as Hv.
    destruct (callback v s) as [s' [e' |]]; cbn in *; [discriminate Hv |].
    apply IH. intros w s'' Hin. apply Hbefore. now right.
Qed.

(** X11.  [each] calls the callback once for every element, in the order
    of iteration, and returns the box itself: a callback that records its
    argument ends with the elements of the box appended to its record.
    When the callback raises on some element, the elements after it are
    not visited and what the callback did up to there stays. *)
Theorem Box_each_visits_in_order (self : box) (log before after : list object)
    (value : object) (callback : object -> list object -> list object * option exn)
    (e : exn) :
  raised (iter_self self) = None ->
  yielded (iter_self self) = before ++ value :: after ->
  (forall v seen, In v before -> callback v seen = (seen ++ [v], None)) ->
  (forall seen, callback value seen = (seen ++ [value], Some e)) ->
  Box_each self (fun v (seen : list object) => (seen ++ [v], None)) log
  = (Ok self, log ++ yielded (iter_self self))
  /\ Box_each self callback log = (Err e, log ++ before ++ [value]).
Proof.
  intros Hok Hsplit Hbefore Hvalue. unfold Box_each. split.
  - now rewrite each_loop_recording, Hok.
  - rewrite Hsplit.
    rewrite (each_loop_stops _ callback before after value _ log e).
    + assert (Hrun : each_loop callback before None log = (log ++ before, None)).
      { clear - Hbefore. revert log.
        induction before as [| v before IH]; intros log; cbn.
        - now rewrite app_nil_r.
        - rewrite (Hbefore v log (or_introl eq_refl)).
          rewrite IH by (intros w seen Hin; apply Hbefore; now right).
          now rewrite <- app_assoc. }
      rewrite Hrun. cbn [fst]. rewrite Hvalue. now rewrite <- app_assoc.
    + intros v s' Hin. now rewrite (Hbefore v s' Hin).
    + intros s'. now rewrite Hvalue.
Qed.

(** X12.  On a [SequenceBox] around a non-empty list or tuple, [first]
    is [self[0]] whatever [or_fail] says; around an empty one, [first]
    gives [None] or raises [IndexError] as [or_fail] asks, where [self[0]]
    always raises [IndexError]. *)
Theorem Box_first_is_item_zero (xs nothing : object) (l : list object) (or_fail : bool) :
  ordered_sequence xs = Some l ->
  l <> [] ->
  ordered_sequence nothing = Some [] ->
  Box_first (SequenceBox___init__ xs) or_fail
  = SequenceBox___getitem__ (SequenceBox___init__ xs) (VInt 0)
  /\ Box_first (SequenceBox___init__ nothing) or_fail
     = (if or_fail then Err IndexError else Ok VNone)
  /\ SequenceBox___getitem__ (SequenceBox___init__ nothing) (VInt 0) = Err IndexError.
Proof.
  intros Hxs Hl Hnothing. unfold Box_first, SequenceBox___getitem__.
  rewrite (iter_self_ordered_sequence xs l Hxs),
          (iter_self_ordered_sequence nothing [] Hnothing),
          (items_ordered_sequence xs l Hxs),
          (items_ordered_sequence nothing [] Hnothing).
  destruct (ordered_sequence_is_Sequence xs l Hxs) as (Hseq & Hels & _).
  destruct (ordered_sequence_is_Sequence nothing [] Hnothing) as (Hseq0 & Hels0 & _).
  rewrite (py_getitem_sequence xs 0 Hseq), (py_getitem_sequence nothing 0 Hseq0).
  rewrite Hels, Hels0. cbn [yield_all yielded raised].
  destruct l as [| x l]; [congruence |]. repeat split.
Qed.

Lemma reduce_loop_never_None (callback : object -> object -> res object)
    (values : list object) (result : object) :
  (forall a v r, callback a v = Ok r -> is_None r = false) ->
  is_None result = false ->
  reduce_loop callback values result true = left_fold callback result values.
Proof.
  intros Hcallback. revert result.
  induction values as [| value rest IH]; intros result Hresult; cbn; [reflexivity |].
  rewrite Hresult. cbn [andb].
  destruct (callback result value) as [r | e] eqn:Hcall; cbn; [| reflexivity].
  apply IH. exact (Hcallback result value r Hcall).
Qed.

(** X13.  With an initial value that is not [None] and a callback that
    never returns [None], [reduce] is the strict left fold of the callback
    from the initial value. *)
Theorem Box_reduce_seeded_is_left_fold (self : box)
    (callback : object -> object -> res object) (initial_value : object) :
  is_None initial_value = false ->
  (forall a v r, callback a v = Ok r -> is_None r = false) ->
  Box_reduce self callback initial_value
  = after_all (iter_self self)
      (left_fold callback initial_value (yielded (iter_self self))).
Proof.
  intros Hseed Hcallback. unfold Box_reduce.
  now rewrite (reduce_loop_never_None callback _ _ Hcallback Hseed).
Qed.

(** ** Chunks at the edges *)

(** X14.  Whatever the chunk size, [Box.chunk] yields at most one group:
    the first [chunk_size] elements when the size is positive and the box
    has that many, nothing otherwise; in every case the list it fills ends
    up holding all the elements of the box. *)
Theorem Box_chunk_yields_at_most_once (self : box) (chunk_size : Z) :
  at_yield (Box_chunk self chunk_size)
  = (if (0 <? chunk_size) && (chunk_size <=? Z.of_nat (length (yielded (iter_self self))))
     then [firstn (Z.to_nat chunk_size) (yielded (iter_self self))]
     else [])
  /\ (length (at_yield (Box_chunk self chunk_size)) <= 1)%nat
  /\ at_end (Box_chunk self chunk_size) = yielded (iter_self self).
Proof.
  assert (Hshape :
            at_yield (Box_chunk self chunk_size)
            = (if (0 <? chunk_size)
                  && (chunk_size <=? Z.of_nat (length (yielded (iter_self self))))
               then [firstn (Z.to_nat chunk_size) (yielded (iter_self self))]
               else [])
            /\ at_end (Box_chunk self chunk_size) = yielded (iter_self self)).
  { destruct (Z.ltb_spec 0 chunk_size) as [Hpos | Hneg]; cbn [andb].
    - now apply Box_chunk_at_most_one_group.
    - unfold Box_chunk. rewrite chunk_generator_full by (cbn; lia). now cbn. }
  destruct Hshape as (Hyield & Hend). repeat split; [exact Hyield | | exact Hend].
  rewrite Hyield. destruct (_ && _); cbn; lia.
Qed.

Section ChunkEdges.

Variable generator_repr : string.
Variable set_order : list object -> list object.

(** X15.  [SequenceBox.chunk] on a list or tuple: size 0 raises
    [ValueError]; a negative size gives an empty box; a size of at least
    the length of a non-empty sequence gives one group, the whole
    sequence. *)
Theorem SequenceBox_chunk_edges (xs : object) (l : list object) (negative large : Z) :
  ordered_sequence xs = Some l ->
  negative < 0 ->
  l <> [] ->
  Z.of_nat (length l) <= large ->
  SequenceBox_chunk generator_repr set_order (SequenceBox___init__ xs) 0 = Err ValueError
  /\ SequenceBox_chunk generator_repr set_order (SequenceBox___init__ xs) negative
     = Ok (SequenceBox___init__ (same_kind xs []))
  /\ SequenceBox_chunk generator_repr set_order (SequenceBox___init__ xs) large
     = Ok (SequenceBox___init__ (same_kind xs [xs])).
Proof.
  intros Hxs Hneg Hl Hlarge.
  assert (Hlen : 0 < Z.of_nat (length l)) by (destruct l; [congruence | cbn; lia]).
  split; [| split].
  - unfold SequenceBox_chunk. now rewrite (len_self_ordered_sequence xs l Hxs).
  - unfold SequenceBox_chunk. rewrite (len_self_ordered_sequence xs l Hxs). cbn [bind].
    unfold py_range.
    destruct (Z.eqb_spec negative 0) as [| _]; [lia |].
    destruct (Z.ltb_spec 0 negative) as [| _]; [lia |].
    destruct (Z.ltb_spec (Z.of_nat (length l)) 0) as [| _]; [lia |].
    cbn [Z.to_nat seq map bind yield_slices].
    exact (Box__new_ordered_sequence generator_repr set_order xs l [] Hxs).
  - rewrite (SequenceBox_chunk_ordered_sequence generator_repr set_order xs l large Hxs)
      by (assumption || lia).
    rewrite Z.div_small by lia. cbn [Z.to_nat seq map Nat.mul skipn].
    rewrite firstn_all2 by lia.
    now destruct (ordered_sequence_is_Sequence xs l Hxs) as (_ & _ & ->).
Qed.

End ChunkEdges.

(** ** [MappingBox] and [MutableMappingBox] *)

Lemma dict_lookup_existsb (kv : list (object * object)) (key : object) :
  match dict_lookup kv key with
  | Ok _ => existsb (fun k => py_eq k key) (map fst kv) = true
  | Err e => e = KeyError /\ existsb (fun k => py_eq k key) (map fst kv) = false
  end.
Proof.
  induction kv as [| [k v] rest IH]; cbn; [auto |].
  destruct (py_eq k key); cbn; [reflexivity | exact IH].
Qed.

Lemma dict_set_lookup_same (kv : list (object * object)) (key value : object) :
  py_eq key key = true ->
  dict_lookup (dict_set kv key value) key = Ok value.
Proof.
  intros Hrefl. induction kv as [| [k v] rest IH]; cbn.
  - now rewrite Hrefl.
  - destruct (py_eq k key) eqn:Heq; cbn; rewrite Heq; [reflexivity | exact IH].
Qed.

Lemma dict_set_length (kv : list (object * object)) (key value : object) :
  length (dict_set kv key value)
  = (length kv + if existsb (fun k => py_eq k key) (map fst kv) then 0 else 1)%nat.
Proof.
  induction kv as [| [k v] rest IH]; cbn; [reflexivity |].
  destruct (py_eq k key); cbn; [lia | rewrite IH; lia].
Qed.

Lemma dict_set_lookup_other (kv : list (object * object)) (key other : string)
    (value : object) :
  key <> other ->
  dict_lookup (dict_set kv (VStr key) value) (VStr other) = dict_lookup kv (VStr other).
Proof.
  intros Hne.
  assert (Hfresh : py_eq (VStr key) (VStr other) = false)
    by (cbn; now apply String.eqb_neq).
  induction kv as [| [k v] rest IH]; cbn [dict_set dict_lookup].
  - now rewrite Hfresh.
  - destruct (py_eq k (VStr key)) eqn:Heq; cbn [dict_set dict_lookup].
    + apply py_eq_text in Heq. subst k. now rewrite Hfresh.
    + now rewrite IH.
Qed.

(** X16.  After [box[key] = value] on a box around a dict, [box[key]]
    is [value] and [key in box] holds; the box has one entry more when the
    key was not in it and as many as before when it was.  The key is any
    hashable object that equals itself. *)
Theorem MutableMappingBox_set_then_get (kv : list (object * object)) (key value : object) :
  hashable key = true ->
  py_eq key key = true ->
  let self := Box___init__ CMutableMappingBox (VDict kv) in
  exists (after : box) (present : bool),
    contains_self self key = Ok present
    /\ MutableMappingBox___setitem__ self key value = Ok after
    /\ MappingBox___getitem__ after key = Ok value
    /\ contains_self after key = Ok true
    /\ len_self after = Ok (Z.of_nat (length kv) + (if present then 0 else 1)).
Proof.
  intros Hhash Hrefl self.
  exists (with_items self (VDict (dict_set kv key value))),
         (existsb (fun k => py_eq k key) (map fst kv)).
  unfold self, contains_self, Mapping___contains__, MappingBox___getitem__,
    MutableMappingBox___setitem__, len_self, SizedBox___len__.
  cbn [Box___init__ with_items cls _items py_setitem py_getitem py_len bind].
  rewrite Hhash. cbn [bind]. rewrite (dict_set_lookup_same kv key value Hrefl).
  rewrite dict_set_length.
  pose proof (dict_lookup_existsb kv key) as Hbefore.
  destruct (dict_lookup kv key) as [v | e].
  - rewrite Hbefore. repeat split. f_equal. lia.
  - destruct Hbefore as (-> & ->). repeat split. f_equal. lia.
Qed.

(** X17.  Setting a text key leaves the value of every other text key as
    it was, be it present or missing. *)
Theorem MutableMappingBox_set_keeps_other_keys (kv : list (object * object))
    (key other : string) (value : object) :
  key <> other ->
  let self := Box___init__ CMutableMappingBox (VDict kv) in
  exists after : box,
    MutableMappingBox___setitem__ self (VStr key) value = Ok after
    /\ MappingBox___getitem__ after (VStr other) = MappingBox___getitem__ self (VStr other)
    /\ contains_self after (VStr other) = contains_self self (VStr other).
Proof.
  intros Hne self.
  exists (with_items self (VDict (dict_set kv (VStr key) value))).
  unfold self, contains_self, Mapping___contains__, MappingBox___getitem__,
    MutableMappingBox___setitem__.
  cbn [Box___init__ with_items cls _items py_setitem py_getitem hashable bind].
  now rewrite (dict_set_lookup_other kv key other value Hne).
Qed.

Lemma dict_remove_text (kv : list (object * object)) (key : string) :
  NoDup (map fst kv) ->
  match dict_remove kv (VStr key) with
  | Some kv' =>
    In (VStr key) (map fst kv)
    /\ S (length kv') = length kv
    /\ ~ In (VStr key) (map fst kv')
    /\ forall other, other <> key ->
         dict_lookup kv' (VStr other) = dict_lookup kv (VStr other)
  | None => ~ In (VStr key) (map fst kv)
  end.
Proof.
  induction kv as [| [k v] rest IH]; cbn; intros Hnodup; [tauto |].
  inversion Hnodup as [| ? ? Hfresh Hrest]; subst.
  destruct (py_eq k (VStr key)) eqn:Heq.
  - apply py_eq_text in Heq. subst k.
    repeat split; auto.
    intros other Hne. cbn.
    now replace (String.eqb key other) with false
      by (symmetry; apply String.eqb_neq; congruence).
  - specialize (IH Hrest).
    assert (Hk : k <> VStr key)
      by (intros ->; cbn in Heq; now rewrite String.eqb_refl in Heq).
    destruct (dict_remove rest (VStr key)) as [kv' |]; cbn.
    + destruct IH as (Hin & Hlen & Hgone & Hothers).
      repeat split; [now right | now rewrite Hlen | | ].
      * intros [-> | Hin']; [congruence | exact (Hgone Hin')].
      * intros other Hne. now rewrite (Hothers other Hne).
    + intros [-> | Hin]; [congruence | exact (IH Hin)].
Qed.

(** X18.  [del box[key]] for a text key on a box around a dict: when the
    key is missing it raises [KeyError]; when it is there, the box has one
    entry less, [box[key]] raises [KeyError], [key in box] is false and
    every other text key reads as before. *)
Theorem MutableMappingBox_delete (kv : list (object * object)) (key : string) :
  NoDup (map fst kv) ->
  let self := Box___init__ CMutableMappingBox (VDict kv) in
  match MappingBox___getitem__ self (VStr key) with
  | Ok _ =>
    exists after : box,
      MutableMappingBox___delitem__ self (VStr key) = Ok after
      /\ len_self self = Ok (Z.of_nat (length kv))
      /\ len_self after = Ok (Z.of_nat (length kv) - 1)
      /\ MappingBox___getitem__ after (VStr key) = Err KeyError
      /\ contains_self after (VStr key) = Ok false
      /\ forall other, other <> key ->
           MappingBox___getitem__ after (VStr other)
           = MappingBox___getitem__ self (VStr other)
  | Err e =>
    e = KeyError /\ MutableMappingBox___delitem__ self (VStr key) = Err KeyError
  end.
Proof.
  intros Hnodup self.
  unfold self, contains_self, Mapping___contains__, MappingBox___getitem__,
    MutableMappingBox___delitem__, len_self, SizedBox___len__.
  cbn [Box___init__ with_items cls _items py_delitem py_getitem py_len hashable bind].
  pose proof (dict_remove_text kv key Hnodup) as Hremove.
  pose proof (dict_lookup_existsb kv (VStr key)) as Hlookup.
  destruct (dict_lookup kv (VStr key)) as [v | e].
  - destruct (dict_remove kv (VStr key)) as [kv' |].
    + destruct Hremove as (_ & Hlen & Hgone & Hothers).
      exists (with_items (Box___init__ CMutableMappingBox (VDict kv)) (VDict kv')).
      cbn [Box___init__ with_items cls _items py_getitem py_len hashable bind].
      rewrite (dict_lookup_text_absent kv' key Hgone).
      repeat split; [f_equal; lia | exact Hothers].
    + exfalso. apply Hremove. apply existsb_exists in Hlookup as (k & Hin & Heq).
      apply py_eq_text in Heq. now subst k.
  - destruct Hlookup as (-> & Habsent). split; [reflexivity |].
    destruct (dict_remove kv (VStr key)) as [kv' |]; [| reflexivity].
    destruct Hremove as (Hin & _).
    assert (Hfound : existsb (fun k => py_eq k (VStr key)) (map fst kv) = true)
      by (apply existsb_exists; exists (VStr key); split;
          [exact Hin | cbn; apply String.eqb_refl]).
    congruence.
Qed.

(** ** [MutableSetBox] *)

Lemma existsb_Permutation {A : Type} (f : A -> bool) (l m : list A) :
  Permutation l m -> existsb f l = existsb f m.
Proof.
  induction 1 as [| x l m _ IH | x y l | l m n _ IH1 _ IH2]; cbn.
  - reflexivity.
  - now rewrite IH.
  - now destruct (f x), (f y).
  - now rewrite IH1.
Qed.

Lemma remove_first_absent (l : list object) (value : object) :
  existsb (fun x => py_eq x value) l = false -> remove_first l value = l.
Proof.
  induction l as [| x rest IH]; cbn; [reflexivity |].
  destruct (py_eq x value); cbn; [discriminate | intros H; now rewrite IH].
Qed.

Lemma remove_first_length (l : list object) (value : object) :
  length (remove_first l value)
  = (length l - if existsb (fun x => py_eq x value) l then 1 else 0)%nat.
Proof.
  induction l as [| x rest IH]; cbn; [reflexivity |].
  destruct (py_eq x value); cbn; [lia |].
  rewrite IH. destruct (existsb _ rest) eqn:Hin; [| lia].
  destruct rest; [discriminate Hin | cbn; lia].
Qed.

Lemma remove_first_gone (l : list object) (value : object) :
  (length (filter (fun x => py_eq x value) l) <= 1)%nat ->
  existsb (fun x => py_eq x value) (remove_first l value) = false.
Proof.
  induction l as [| x rest IH]; cbn; [reflexivity |].
  destruct (py_eq x value) eqn:Heq; cbn; intros Hcount.
  - destruct (existsb (fun y => py_eq y value) rest) eqn:Hin; [| reflexivity].
    apply existsb_exists in Hin as (y & Hy & Hyv).
    assert (Hfilter : In y (filter (fun x => py_eq x value) rest))
      by (apply filter_In; auto).
    destruct (filter _ rest); [contradiction | cbn in Hcount; lia].
  - rewrite Heq. cbn. exact (IH Hcount).
Qed.

Section Sets.

Variable set_order : list object -> list object.
Hypothesis set_order_permutes : forall l, Permutation (set_order l) l.

(** X19.  [add] on a box around a set, for a hashable value that equals
    itself: afterwards the value is in the box; the box has one element
    more when the value was not in it and is unchanged when it was; every
    hashable object that was in the box still is; adding the value again
    changes nothing. *)
Theorem MutableSetBox_add_member (l : list object) (value member : object) :
  hashable value = true ->
  py_eq value value = true ->
  hashable member = true ->
  existsb (fun x => py_eq x member) l = true ->
  let self := Box___init__ CMutableSetBox (VSet l) in
  exists (after : box) (present : bool),
    contains_self self value = Ok present
    /\ MutableSetBox_add set_order self value = Ok after
    /\ (present = true -> after = self)
    /\ contains_self after value = Ok true
    /\ contains_self after member = Ok true
    /\ len_self after = Ok (Z.of_nat (length l) + (if present then 0 else 1))
    /\ MutableSetBox_add set_order after value = Ok after.
Proof.
  intros Hhash Hrefl Hmember Hin self. unfold self.
  destruct (existsb (fun x => py_eq x value) l) eqn:Hpresent.
  - exists (Box___init__ CMutableSetBox (VSet l)), true.
    unfold MutableSetBox_add, contains_self, Box___contains__, len_self,
      SizedBox___len__.
    cbn [Box___init__ with_items cls _items py_contains py_len].
    rewrite Hhash, Hmember, Hpresent, Hin. repeat split. f_equal. lia.
  - exists (with_items (Box___init__ CMutableSetBox (VSet l))
              (VSet (set_order (l ++ [value])))), false.
    unfold MutableSetBox_add, contains_self, Box___contains__, len_self,
      SizedBox___len__.
    cbn [Box___init__ with_items cls _items py_contains py_len].
    rewrite Hhash, Hmember, Hpresent.
    rewrite !(existsb_Permutation _ _ _ (set_order_permutes (l ++ [value]))).
    rewrite (Permutation_length (set_order_permutes (l ++ [value]))).
    rewrite !existsb_app, Hpresent, Hin, length_app. cbn [existsb length orb].
    rewrite Hrefl. cbn [orb].
    repeat split; [discriminate | f_equal; lia].
Qed.

End Sets.

(** X20.  [discard] on a box around a set never raises for a hashable
    value.  Afterwards the value is not in the box; the box has one
    element less when the value was in it, and is the same set when it was
    not; discarding again changes nothing.  The set holds at most one
    element equal to the value, as every set does. *)
Theorem MutableSetBox_discard_member (l : list object) (value : object) :
  hashable value = true ->
  (length (filter (fun x => py_eq x value) l) <= 1)%nat ->
  let self := Box___init__ CMutableSetBox (VSet l) in
  exists (after : box) (present : bool),
    contains_self self value = Ok present
    /\ MutableSetBox_discard self value = Ok after
    /\ (present = false -> after = self)
    /\ contains_self after value = Ok false
    /\ len_self after = Ok (Z.of_nat (length l) - (if present then 1 else 0))
    /\ MutableSetBox_discard after value = Ok after.
Proof.
  intros Hhash Hcount self.
  exists (with_items self (VSet (remove_first l value))),
         (existsb (fun x => py_eq x value) l).
  unfold self, MutableSetBox_discard, contains_self, Box___contains__, len_self,
    SizedBox___len__.
  cbn [Box___init__ with_items cls _items py_contains py_len].
  rewrite Hhash, (remove_first_gone l value Hcount), remove_first_length.
  rewrite (remove_first_absent (remove_first l value) value
             (remove_first_gone l value Hcount)).
  repeat split.
  - intros Habsent. now rewrite (remove_first_absent l value Habsent).
  - f_equal. destruct (existsb _ l) eqn:Hin; [| lia].
    destruct l; [discriminate Hin | cbn [length]; lia].
Qed.

(** ** [SequenceBox.reverse] and [Box.first] *)

Lemma index_list_last {A : Type} (m : list A) (x : A) :
  index_list (m ++ [x]) (-1) = Ok x.
Proof.
  unfold index_list. rewrite length_app. cbn [length Z.ltb Z.compare].
  replace (-1 + Z.of_nat (length m + 1)) with (Z.of_nat (length m)) by lia.
  destruct (Z.leb_spec 0 (Z.of_nat (length m))) as [_ |]; [| lia].
  destruct (Z.ltb_spec (Z.of_nat (length m)) (Z.of_nat (length m + 1))) as [_ |]; [| lia].
  cbn [andb]. rewrite Nat2Z.id, nth_error_app2 by lia.
  now rewrite Nat.sub_diag.
Qed.

Section ReverseFirst.

Variable generator_repr : string.
Variable set_order : list object -> list object.

(** X21.  The first element of the reverse of a non-empty list or tuple
    box is [self[-1]], and the reverse has the length of the box. *)
Theorem SequenceBox_reverse_first_is_last (xs : object) (l : list object)
    (or_fail : bool) :
  ordered_sequence xs = Some l ->
  l <> [] ->
  exists reversed : box,
    SequenceBox_reverse generator_repr set_order (SequenceBox___init__ xs) = Ok reversed
    /\ Box_first reversed or_fail
       = SequenceBox___getitem__ (SequenceBox___init__ xs) (VInt (-1))
    /\ len_self reversed = len_self (SequenceBox___init__ xs).
Proof.
  intros Hxs Hl.
  exists (SequenceBox___init__ (same_kind xs (rev l))).
  pose proof (ordered_sequence_same_kind xs (rev l)) as Hkind.
  destruct (ordered_sequence_is_Sequence xs l Hxs) as (Hseq & Hels & _).
  split; [now apply SequenceBox_reverse_ordered_sequence |].
  unfold Box_first, SequenceBox___getitem__.
  rewrite (iter_self_ordered_sequence _ _ Hkind), (items_ordered_sequence xs l Hxs).
  rewrite (py_getitem_sequence xs _ Hseq), Hels.
  rewrite (len_self_ordered_sequence _ _ Hkind), (len_self_ordered_sequence xs l Hxs).
  rewrite length_rev.
  destruct (exists_last Hl) as (m & x & ->).
  rewrite rev_unit, index_list_last. cbn [yield_all yielded]. auto.
Qed.

End ReverseFirst.

(** ** Length, truth value and membership *)

Lemma chars_length (s : string) : length (chars s) = String.length s.
Proof.
  unfold chars. rewrite length_map.
  induction s as [| a s IH]; cbn; [reflexivity | now rewrite IH].
Qed.

(** X22.  A [SequenceBox] around a list, tuple or string is consistent
    with what it wraps: [items] is the object itself, the box iterates
    over its elements (the characters of a string), [len] counts them, the
    box is true exactly when there is one, and, for a [value] that equals
    itself, [value in box] holds exactly when some element equals
    [value]. *)
Theorem SequenceBox_of_sequence (x value : object) :
  isinstance_Sequence x = true ->
  py_eq value value = true ->
  let self := SequenceBox___init__ x in
  items self = Some x
  /\ iter_self self = py_iter x
  /\ len_self self = Ok (Z.of_nat (length (yielded (iter_self self))))
  /\ Box___bool__ self = negb (Nat.eqb (length (yielded (iter_self self))) 0)
  /\ contains_self self value
     = Ok (existsb (fun element => py_eq element value) (yielded (iter_self self))).
Proof.
  intros Hseq _ self.
  assert (Hiter : iter_self self = py_iter x).
  { unfold self. rewrite iter_self_SequenceBox, Hseq.
    destruct x; cbn in Hseq; try discriminate Hseq; reflexivity. }
  assert (Hcontains : contains_self self value = Sequence___contains__ self value)
    by (unfold self, contains_self, SequenceBox___init__; now rewrite Hseq).
  assert (Hloop : Sequence___iter__ self = py_iter x)
    by (rewrite <- Hiter; unfold self, iter_self, SequenceBox___init__; now rewrite Hseq).
  rewrite Hcontains. unfold Sequence___contains__. rewrite Hloop, Hiter.
  unfold self, SequenceBox___init__. rewrite Hseq.
  destruct x as [| | | | s | l | l | l | kv]; cbn in Hseq; try discriminate Hseq;
    cbn [Box___init__ cls _items items len_self SizedBox___len__ Box___bool__
         py_len py_bool py_iter yield_all yielded raised];
    rewrite ?chars_length, contains_loop_existsb;
    repeat split.
  destruct s; reflexivity.
Qed.

(** ** Instances *)

Lemma Box_map_fusion_witness :
  let xs := VTuple [VInt 1; VInt 2] in
  let f := fun v => py_add v (VInt 1) in
  let g := fun v => py_add v v in
  let mapped := SequenceBox___init__ (VTuple [VInt 2; VInt 3]) in
  Box_map example_repr insertion_order (SequenceBox___init__ xs) f = Ok mapped
  /\ Box_map example_repr insertion_order mapped g
     = Box_map example_repr insertion_order (SequenceBox___init__ xs)
         (fun v => w <- f v ;; g w)
  /\ Box_map example_repr insertion_order mapped g
     = Ok (SequenceBox___init__ (VTuple [VInt 4; VInt 6])).
Proof.
  cbv zeta. split; [reflexivity |].
  destruct (Box_map_fusion example_repr insertion_order CSequenceBox
              (VTuple [VInt 1; VInt 2]) [VInt 1; VInt 2]
              (fun v => py_add v (VInt 1)) (fun v => py_add v v)
              (SequenceBox___init__ (VTuple [VInt 2; VInt 3])))
    as (Hfusion & _); [reflexivity | reflexivity |].
  split; [exact Hfusion | reflexivity].
Defined.

Lemma Box_filter_idempotent_witness :
  let xs := VList [VInt 0; VInt 3; VNone; VInt 5] in
  let filtered := SequenceBox___init__ (VList [VInt 3; VInt 5]) in
  Box_filter example_repr insertion_order (SequenceBox___init__ xs) (Some identity)
  = Ok filtered
  /\ Box_filter example_repr insertion_order filtered (Some identity) = Ok filtered.
Proof.
  cbv zeta. split; [reflexivity |].
  apply (Box_filter_idempotent example_repr insertion_order CSequenceBox
           (VList [VInt 0; VInt 3; VNone; VInt 5]) [VInt 0; VInt 3; VNone; VInt 5]
           identity (SequenceBox___init__ (VList [VInt 3; VInt 5])));
    reflexivity.
Defined.

Lemma Box_filter_default_is_truthiness_witness :
  Box_filter example_repr insertion_order
    (SequenceBox___init__ (VList [VInt 0; VBool false; VNone; VInt 6])) None
  = Ok (SequenceBox___init__ (VList [VInt 6])).
Proof.
  apply (Box_filter_default_is_truthiness example_repr insertion_order CSequenceBox
           (VList [VInt 0; VBool false; VNone; VInt 6])
           [VInt 0; VBool false; VNone; VInt 6]).
  reflexivity.
Defined.

Lemma Box_first_where_is_first_of_where_witness :
  let records :=
    VList [VDict [(VStr "name", VStr "X")]; VDict [(VStr "name", VStr "Y")]] in
  Box_first_where no_attributes no_attribute_value equality_operators
    (SequenceBox___init__ records) "name" (Some "=="%string) (VStr "Y") true
  = Box_first (SequenceBox___init__ (VList [VDict [(VStr "name", VStr "Y")]])) true.
Proof.
  cbv zeta.
  apply (Box_first_where_is_first_of_where example_repr insertion_order
           no_attributes no_attribute_value equality_operators CSequenceBox
           (VList [VDict [(VStr "name", VStr "X")]; VDict [(VStr "name", VStr "Y")]])
           [VDict [(VStr "name", VStr "X")]; VDict [(VStr "name", VStr "Y")]]);
    reflexivity.
Defined.

Lemma Box_where_invalid_operator_witness :
  let every_attribute := fun (_ : object) (_ : string) => true in
  Box_where example_repr insertion_order every_attribute no_attribute_value
    equality_operators (SequenceBox___init__ (VList [])) "id" (Some "~"%string) (VInt 2)
  = Ok (SequenceBox___init__ (VList []))
  /\ Box_where example_repr insertion_order every_attribute no_attribute_value
       equality_operators (SequenceBox___init__ (VList [VInt 1; VInt 2])) "id"
       (Some "~"%string) (VInt 2)
     = Err ValueError.
Proof.
  cbv zeta.
  destruct (Box_where_invalid_operator example_repr insertion_order
              (fun _ _ => true) no_attribute_value equality_operators CSequenceBox
              (VList []) (VList [VInt 1; VInt 2]) (VInt 1) [VInt 2]
              "id" "~" (VInt 2))
    as (Hempty & _ & Hwhere & _); [reflexivity | reflexivity | reflexivity | reflexivity |].
  split; [exact Hempty | exact Hwhere].
Defined.

Lemma Box__where_unresolved_key_witness :
  Box__where no_attributes no_attribute_value equality_operators
    (VDict [(VStr "id", VInt 1)]) "name" (Some "~"%string) VNone = Err KeyError
  /\ Box__where no_attributes no_attribute_value equality_operators
       (VInt 3) "name" None VNone = Err ValueError.
Proof.
  split.
  - apply (Box__where_unresolved_key no_attributes no_attribute_value equality_operators
             [(VStr "id", VInt 1)] VNone "name" (Some "~"%string) VNone);
      [reflexivity | intros [H | []]; discriminate H | reflexivity | reflexivity].
  - apply (Box__where_unresolved_key no_attributes no_attribute_value equality_operators
             [] (VInt 3) "name" None VNone);
      [reflexivity | intros [] | reflexivity | reflexivity].
Defined.

Lemma Box_merge_appends_witness :
  Box_merge example_repr insertion_order (SequenceBox___init__ (VList [VInt 1; VInt 2]))
    (Plain (VTuple [VInt 3]))
  = Ok (SequenceBox___init__ (VList [VInt 1; VInt 2; VInt 3])).
Proof.
  apply (Box_merge_appends example_repr insertion_order CSequenceBox
           (VList [VInt 1; VInt 2]) (VTuple [VInt 3]) (VList [VInt 4])
           [VInt 1; VInt 2] [VInt 3] [VInt 4]);
    reflexivity.
Defined.

Lemma Box_zip_truncates_witness :
  exists pairs : list object,
    Box_zip example_repr insertion_order (SequenceBox___init__ (VList [VInt 1; VInt 2]))
      (Plain (VList [VInt 3; VInt 4; VInt 5]))
    = Ok (SequenceBox___init__ (VList pairs))
    /\ pairs = [VTuple [VInt 1; VInt 3]; VTuple [VInt 2; VInt 4]].
Proof.
  destruct (Box_zip_truncates example_repr insertion_order CSequenceBox
              (VList [VInt 1; VInt 2]) (VList [VInt 3; VInt 4; VInt 5])
              [VInt 1; VInt 2] [VInt 3; VInt 4; VInt 5])
    as (pairs & Hzip & _ & Hpairs & _); [reflexivity | reflexivity |].
  exists pairs. split; [exact Hzip | exact Hpairs].
Defined.

Lemma Box_zip_refuses_at_once_witness :
  Box_zip example_repr insertion_order (SequenceBox___init__ (VList [])) (Plain (VInt 5))
  = Err TypeError
  /\ Box_merge example_repr insertion_order (SequenceBox___init__ (VList [VInt 1]))
       (Plain (VInt 5))
     = Err TypeError.
Proof.
  apply (Box_zip_refuses_at_once example_repr insertion_order
           (SequenceBox___init__ (VList [])) CSequenceBox (VList [VInt 1]) [VInt 1]
           (VInt 5));
    reflexivity.
Defined.

Lemma Box_diff_removes_members_witness :
  exists kept : list object,
    Box_diff example_repr insertion_order
      (SequenceBox___init__ (VTuple [VInt 1; VInt 2; VInt 3]))
      (Boxed (SequenceBox___init__ (VTuple [VInt 2; VInt 3])))
    = Ok (SequenceBox___init__ (VTuple kept))
    /\ kept = [VInt 1].
Proof.
  destruct (Box_diff_removes_members example_repr insertion_order CSequenceBox
              (VTuple [VInt 1; VInt 2; VInt 3]) (VTuple [VInt 2; VInt 3]) (VList [])
              [VInt 1; VInt 2; VInt 3] [VInt 2; VInt 3])
    as (kept & _ & Hboxed & Hkept & _);
    [reflexivity | repeat constructor | reflexivity | reflexivity |].
  exists kept. split; [exact Hboxed | exact Hkept].
Defined.

Lemma Box_each_visits_in_order_witness :
  let self := SequenceBox___init__ (VList [VInt 2; VInt 3; VInt 1]) in
  let callback := fun (v : object) (seen : list object) =>
    (seen ++ [v], if py_eq v (VInt 3) then Some ValueError else None) in
  Box_each self (fun v (seen : list object) => (seen ++ [v], None)) []
  = (Ok self, [VInt 2; VInt 3; VInt 1])
  /\ Box_each self callback [] = (Err ValueError, [VInt 2; VInt 3]).
Proof.
  cbv zeta.
  apply (Box_each_visits_in_order
           (SequenceBox___init__ (VList [VInt 2; VInt 3; VInt 1]))
           [] [VInt 2] [VInt 1] (VInt 3)
           (fun v seen => (seen ++ [v], if py_eq v (VInt 3) then Some ValueError else None))
           ValueError);
    [ reflexivity
    | reflexivity
    | intros v seen [<- | []]; reflexivity
    | intros seen; reflexivity ].
Defined.

Lemma Box_first_is_item_zero_witness :
  Box_first (SequenceBox___init__ (VTuple [VInt 2; VInt 3; VInt 1])) true
  = SequenceBox___getitem__ (SequenceBox___init__ (VTuple [VInt 2; VInt 3; VInt 1])) (VInt 0)
  /\ Box_first (SequenceBox___init__ (VList [])) true = Err IndexError
  /\ SequenceBox___getitem__ (SequenceBox___init__ (VList [])) (VInt 0) = Err IndexError.
Proof.
  apply (Box_first_is_item_zero (VTuple [VInt 2; VInt 3; VInt 1]) (VList [])
           [VInt 2; VInt 3; VInt 1] true);
    [reflexivity | discriminate | reflexivity].
Defined.

Lemma Box_reduce_seeded_is_left_fold_witness :
  let pair := fun a v => Ok (VTuple [a; v]) in
  Box_reduce (SequenceBox___init__ (VList [VInt 1; VInt 2])) pair (VInt 0)
  = Ok (VTuple [VTuple [VInt 0; VInt 1]; VInt 2]).
Proof.
  cbv zeta.
  rewrite (Box_reduce_seeded_is_left_fold
             (SequenceBox___init__ (VList [VInt 1; VInt 2]))
             (fun a v => Ok (VTuple [a; v])) (VInt 0));
    [reflexivity | reflexivity | intros a v r [= <-]; reflexivity].
Defined.

Lemma SequenceBox_chunk_edges_witness :
  let self := SequenceBox___init__ (VList [VInt 1; VInt 2; VInt 3]) in
  SequenceBox_chunk example_repr insertion_order self 0 = Err ValueError
  /\ SequenceBox_chunk example_repr insertion_order self (-2)
     = Ok (SequenceBox___init__ (VList []))
  /\ SequenceBox_chunk example_repr insertion_order self 5
     = Ok (SequenceBox___init__ (VList [VList [VInt 1; VInt 2; VInt 3]])).
Proof.
  cbv zeta.
  apply (SequenceBox_chunk_edges example_repr insertion_order
           (VList [VInt 1; VInt 2; VInt 3]) [VInt 1; VInt 2; VInt 3] (-2) 5);
    [reflexivity | lia | discriminate | cbn; lia].
Defined.

Lemma MutableMappingBox_set_then_get_witness :
  let self := Box___init__ CMutableMappingBox (VDict [(VStr "foo", VStr "bar")]) in
  exists (after : box) (present : bool),
    contains_self self (VStr "baz") = Ok present
    /\ MutableMappingBox___setitem__ self (VStr "baz") (VInt 3) = Ok after
    /\ MappingBox___getitem__ after (VStr "baz") = Ok (VInt 3)
    /\ contains_self after (VStr "baz") = Ok true
    /\ len_self after = Ok (1 + (if present then 0 else 1)).
Proof.
  cbv zeta.
  apply (MutableMappingBox_set_then_get [(VStr "foo", VStr "bar")] (VStr "baz") (VInt 3));
    reflexivity.
Defined.

Lemma MutableMappingBox_set_keeps_other_keys_witness :
  let self := Box___init__ CMutableMappingBox (VDict [(VStr "foo", VStr "bar")]) in
  exists after : box,
    MutableMappingBox___setitem__ self (VStr "baz") (VInt 3) = Ok after
    /\ MappingBox___getitem__ after (VStr "foo") = MappingBox___getitem__ self (VStr "foo")
    /\ contains_self after (VStr "foo") = contains_self self (VStr "foo").
Proof.
  cbv zeta.
  apply (MutableMappingBox_set_keeps_other_keys [(VStr "foo", VStr "bar")]
           "baz" "foo" (VInt 3)).
  discriminate.
Defined.

Lemma MutableMappingBox_delete_witness :
  let self := Box___init__ CMutableMappingBox (VDict [(VStr "foo", VStr "bar")]) in
  exists after : box,
    MutableMappingBox___delitem__ self (VStr "foo") = Ok after
    /\ len_self self = Ok 1
    /\ len_self after = Ok 0
    /\ MappingBox___getitem__ after (VStr "foo") = Err KeyError
    /\ contains_self after (VStr "foo") = Ok false
    /\ forall other, other <> "foo"%string ->
         MappingBox___getitem__ after (VStr other)
         = MappingBox___getitem__ self (VStr other).
Proof.
  cbv zeta.
  refine (MutableMappingBox_delete [(VStr "foo", VStr "bar")] "foo" _).
  constructor; [intros [] | constructor].
Defined.

Lemma MutableSetBox_add_member_witness :
  let self := Box___init__ CMutableSetBox (VSet [VInt 1; VInt 2; VInt 3]) in
  exists (after : box) (present : bool),
    contains_self self (VInt 4) = Ok present
    /\ MutableSetBox_add insertion_order self (VInt 4) = Ok after
    /\ (present = true -> after = self)
    /\ contains_self after (VInt 4) = Ok true
    /\ contains_self after (VInt 2) = Ok true
    /\ len_self after = Ok (3 + (if present then 0 else 1))
    /\ MutableSetBox_add insertion_order after (VInt 4) = Ok after.
Proof.
  cbv zeta.
  apply (MutableSetBox_add_member insertion_order (fun l => Permutation_refl l)
           [VInt 1; VInt 2; VInt 3] (VInt 4) (VInt 2));
    reflexivity.
Defined.

Lemma MutableSetBox_discard_member_witness :
  let self := Box___init__ CMutableSetBox (VSet [VInt 1; VInt 2; VInt 3]) in
  exists (after : box) (present : bool),
    contains_self self (VInt 2) = Ok present
    /\ MutableSetBox_discard self (VInt 2) = Ok after
    /\ (present = false -> after = self)
    /\ contains_self after (VInt 2) = Ok false
    /\ len_self after = Ok (3 - (if present then 1 else 0))
    /\ MutableSetBox_discard after (VInt 2) = Ok after.
Proof.
  cbv zeta.
  apply (MutableSetBox_discard_member [VInt 1; VInt 2; VInt 3] (VInt 2));
    [reflexivity | cbn; lia].
Defined.

Lemma SequenceBox_reverse_first_is_last_witness :
  exists reversed : box,
    SequenceBox_reverse example_repr insertion_order
      (SequenceBox___init__ (VList [VInt 1; VInt 2; VInt 3])) = Ok reversed
    /\ Box_first reversed false
       = SequenceBox___getitem__ (SequenceBox___init__ (VList [VInt 1; VInt 2; VInt 3]))
           (VInt (-1))
    /\ len_self reversed = len_self (SequenceBox___init__ (VList [VInt 1; VInt 2; VInt 3])).
Proof.
  apply (SequenceBox_reverse_first_is_last example_repr insertion_order
           (VList [VInt 1; VInt 2; VInt 3]) [VInt 1; VInt 2; VInt 3] false);
    [reflexivity | discriminate].
Defined.

Lemma SequenceBox_of_sequence_witness :
  let self := SequenceBox___init__ (VStr "abc") in
  items self = Some (VStr "abc")
  /\ iter_self self = yield_all [VStr "a"; VStr "b"; VStr "c"]
  /\ len_self self = Ok 3
  /\ contains_self self (VStr "ab") = Ok false
  /\ py_contains (VStr "abc") (VStr "ab") = Ok true.
Proof.
  cbv zeta.
  destruct (SequenceBox_of_sequence (VStr "abc") (VStr "ab") eq_refl eq_refl)
    as (Hitems & Hiter & Hlen & _ & Hcontains).
  split; [exact Hitems |]. split; [exact Hiter |]. split; [exact Hlen |].
  split; [exact Hcontains | reflexivity].
Defined.
